(** * PipelineServerless: the sentiment pipeline of [lambda_function.py]

    A shallow embedding of the scheduled handler that loads the Reddit
    credentials from Secrets Manager, fetches the hot posts of one
    subreddit, scores each title with VADER, and writes one item per
    post to DynamoDB through a batch writer.

    Python floats are IEEE binary64 values ([spec_float]); record dicts
    are finite maps from field names to values; the services the handler
    talks to (secret store, Reddit, clock, table) are the fields of a
    [World]; the handler runs in a state-and-exception monad whose state
    holds the trace of observable calls, the number of clock readings and
    the list object bound to [processed_results]. The construction of
    the boto3 handles, which calls no service but can raise, is a
    [Handles]: [invocation] runs it and then the handler proper. *)

From Stdlib Require Import ZArith Ascii String Floats.SpecFloat.
From stdpp Require Import gmap strings list fin_maps pretty.

Open Scope Z_scope.

#[local] Set Warnings "-register-all".

(* ===================================================================== *)
(** * Floats *)
(* ===================================================================== *)

Module Float.

(** binary64: 53 bits of precision, exponent of the infinities 1024. *)
Definition prec : Z := 53.
Definition emax : Z := 1024.

Definition is_binary64 (x : spec_float) : bool := valid_binary prec emax x.

(** The literal [0.05]: the binary64 value nearest to 1/20, which is
    [7205759403792794 * 2^-57] (0x1.999999999999ap-5). *)
Definition lit_0_05 : spec_float := S754_finite false 7205759403792794 (-57).

(** [-0.05] is the unary minus applied to the literal [0.05]. *)
Definition lit_neg_0_05 : spec_float := SFopp lit_0_05.

(** [a >= b] and [a <= b] on floats; any comparison with a NaN is false. *)
Definition ge (a b : spec_float) : bool := SFleb b a.
Definition le (a b : spec_float) : bool := SFleb a b.

(** Exact comparison of the real value of a float with the fraction
    [n / d]: the value of [S754_finite s m e] is [(-1)^s * m * 2^e].
    [value_ge x n d] holds when [x >= n / d] as real numbers. *)
Definition value_ge (x : spec_float) (n : Z) (d : positive) : Prop :=
  match x with
  | S754_nan => False
  | S754_infinity s => s = false
  | S754_zero _ => n <= 0
  | S754_finite s m e =>
      if 0 <=? e
      then n <= (if s then -1 else 1) * Z.pos m * 2 ^ e * Z.pos d
      else n * 2 ^ (- e) <= (if s then -1 else 1) * Z.pos m * Z.pos d
  end.

(** [value_le x n d] holds when [x <= n / d] as real numbers. *)
Definition value_le (x : spec_float) (n : Z) (d : positive) : Prop :=
  match x with
  | S754_nan => False
  | S754_infinity s => s = true
  | S754_zero _ => 0 <= n
  | S754_finite s m e =>
      if 0 <=? e
      then (if s then -1 else 1) * Z.pos m * 2 ^ e * Z.pos d <= n
      else (if s then -1 else 1) * Z.pos m * Z.pos d <= n * 2 ^ (- e)
  end.

End Float.

(* ===================================================================== *)
(** * Decimals *)
(* ===================================================================== *)

Module Decimal.

(** A [decimal.Decimal]: sign, integer coefficient and exponent for a
    finite number (value [(-1)^sign * coeff * 10^exp]), or a special. *)
Inductive t :=
| Finite (sign : bool) (coeff : N) (exp : Z)
| Infinity (sign : bool)
| NaN (sign : bool) (signaling : bool) (diag : N).

Definition is_digit (c : ascii) : bool :=
  ((48 <=? nat_of_ascii c) && (nat_of_ascii c <=? 57))%nat.

Definition digit_value (c : ascii) : N := N_of_ascii c - 48.

Fixpoint span_digits (cs : list ascii) : list ascii * list ascii :=
  match cs with
  | c :: r => if is_digit c then let '(ds, rest) := span_digits r in (c :: ds, rest)
              else ([], cs)
  | [] => ([], [])
  end.

(** [int(ds)] for a run of ASCII digits (0 for the empty run). *)
Definition int_of_digits (ds : list ascii) : N :=
  fold_left (fun acc c => 10 * acc + digit_value c)%N ds 0%N.

Definition to_lower (c : ascii) : ascii :=
  let n := nat_of_ascii c in
  if ((65 <=? n) && (n <=? 90))%nat then ascii_of_nat (n + 32) else c.

Definition is_space (c : ascii) : bool :=
  let n := nat_of_ascii c in ((n =? 32) || ((9 <=? n) && (n <=? 13)))%nat.

Fixpoint lstrip (cs : list ascii) : list ascii :=
  match cs with
  | c :: r => if is_space c then lstrip r else cs
  | [] => []
  end.

Definition strip (cs : list ascii) : list ascii := rev (lstrip (rev (lstrip cs))).

Definition is_underscore (c : ascii) : bool := (nat_of_ascii c =? 95)%nat.

Definition chars (s : string) : list ascii := list_ascii_of_string s.

(** The exponent part: an optional sign and at least one digit, up to
    the end of the input. *)
Definition parse_exponent (cs : list ascii) : option Z :=
  let '(neg, body) :=
    match cs with
    | "-"%char :: r => (true, r)
    | "+"%char :: r => (false, r)
    | _ => (false, cs)
    end in
  match span_digits body with
  | ((_ :: _) as ds, []) =>
      let n := Z.of_N (int_of_digits ds) in Some (if neg then - n else n)
  | _ => None
  end.

(** A number: digits with an optional fraction and exponent, with at
    least one digit in the integer or the fractional part. *)
Definition parse_number (sign : bool) (cs : list ascii) : option t :=
  let '(ip, r1) := span_digits cs in
  let '(fp, r2) :=
    match r1 with
    | "."%char :: r => span_digits r
    | _ => ([], r1)
    end in
  match ip ++ fp with
  | [] => None
  | ds =>
      let finish (e : Z) :=
        Finite sign (int_of_digits ds) (e - Z.of_nat (length fp)) in
      match r2 with
      | [] => Some (finish 0)
      | c :: r3 =>
          if Ascii.eqb (to_lower c) "e"
          then finish <$> parse_exponent r3
          else None
      end
  end.

(** An infinity or a (signalling) NaN with optional diagnostic digits. *)
Definition parse_special (sign : bool) (cs : list ascii) : option t :=
  let low := to_lower <$> cs in
  if bool_decide (low = chars "inf") || bool_decide (low = chars "infinity")
  then Some (Infinity sign)
  else
    let nan_payload (signaling : bool) (r : list ascii) :=
      match span_digits r with
      | (ds, []) => Some (NaN sign signaling (int_of_digits ds))
      | _ => None
      end in
    match low with
    | "n"%char :: "a"%char :: "n"%char :: r => nan_payload false r
    | "s"%char :: "n"%char :: "a"%char :: "n"%char :: r => nan_payload true r
    | _ => None
    end.

(** [Decimal(s)] for a string [s]: surrounding whitespace is stripped,
    underscores are dropped, then an optional sign and a number or a
    special value must span the whole input. [None] stands for
    [decimal.InvalidOperation]. *)
Definition of_string (s : string) : option t :=
  let cs := filter (fun c => negb (is_underscore c)) (strip (chars s)) in
  let '(sign, body) :=
    match cs with
    | "-"%char :: r => (true, r)
    | "+"%char :: r => (false, r)
    | _ => (false, cs)
    end in
  match parse_number sign body with
  | Some d => Some d
  | None => parse_special sign body
  end.

(** The direct conversion [Decimal(f)] of a float: the exact binary
    value written in decimal. With [f = n / 2^k] in lowest terms the
    coefficient is [n * 5^k] and the exponent [-k]. *)
Fixpoint lowest_terms (m : positive) (e : Z) : positive * Z :=
  match m with
  | xO p => if e <? 0 then lowest_terms p (e + 1) else (m, e)
  | _ => (m, e)
  end.

Definition of_float (f : spec_float) : t :=
  match f with
  | S754_zero s => Finite s 0 0
  | S754_infinity s => Infinity s
  | S754_nan => NaN false false 0
  | S754_finite s m e =>
      let '(n, e') := lowest_terms m e in
      if 0 <=? e' then Finite s (N.pos n * 2 ^ Z.to_N e') 0
      else Finite s (N.pos n * 5 ^ Z.to_N (- e')) e'
  end.

(** Numerical equality of the values of finite decimals. *)
Definition same_value (a b : t) : Prop :=
  match a, b with
  | Finite sa ca ea, Finite sb cb eb =>
      (if sa then -1 else 1) * Z.of_N ca * 10 ^ (ea - Z.min ea eb)
      = (if sb then -1 else 1) * Z.of_N cb * 10 ^ (eb - Z.min ea eb)
  | _, _ => a = b
  end.

End Decimal.

(* ===================================================================== *)
(** * Values, exceptions, JSON *)
(* ===================================================================== *)

(** The values a record dict holds. *)
Inductive pyval :=
| PyStr (s : string)
| PyFloat (f : spec_float)
| PyDecimal (d : Decimal.t).

(** A record is a Python dict with string keys. *)
Abbreviation item := (gmap string pyval).

(** Exceptions. [ClientError] is [botocore.exceptions.ClientError], the
    only class the two [except] clauses name; its argument is [str(e)].
    [OtherError] stands for any exception of another class. *)
Inductive exn :=
| ClientError (msg : string)
| KeyError (key : string)
| TypeError (msg : string)
| InvalidOperation (literal : string)
| OtherError (cls msg : string).

Definition is_ClientError (e : exn) : bool :=
  match e with ClientError _ => true | _ => false end.

(** [str(e)], as the f-string of line 86 formats it. *)
Definition exn_str (e : exn) : string :=
  match e with
  | ClientError msg => msg
  | KeyError k => "'" +:+ k +:+ "'"
  | TypeError msg => msg
  | InvalidOperation l => l
  | OtherError _ msg => msg
  end.

Inductive result (A : Type) :=
| Ok (a : A)
| Raise (e : exn).
Arguments Ok {A} a.
Arguments Raise {A} e.

(** What [json.loads] returns and [json.dumps] takes. An object keeps
    its pairs in insertion order. *)
Inductive json :=
| JNull
| JBool (b : bool)
| JInt (n : Z)
| JFloat (f : spec_float)
| JStr (s : string)
| JArr (l : list json)
| JObj (kvs : list (string * json)).

Module Json.

(** [d[k]] on the dict of an object: the last pair with key [k]. *)
Fixpoint lookup (k : string) (kvs : list (string * json)) : option json :=
  match kvs with
  | [] => None
  | (k', v) :: rest =>
      match lookup k rest with
      | Some v' => Some v'
      | None => if String.eqb k k' then Some v else None
      end
  end.

(** [v[k]] for a string key [k]. *)
Definition getitem (v : json) (k : string) : result json :=
  match v with
  | JObj kvs =>
      match lookup k kvs with
      | Some x => Ok x
      | None => Raise (KeyError k)
      end
  | JArr _ => Raise (TypeError "list indices must be integers or slices, not str")
  | JStr _ => Raise (TypeError "string indices must be integers, not 'str'")
  | JNull => Raise (TypeError "'NoneType' object is not subscriptable")
  | JBool _ => Raise (TypeError "'bool' object is not subscriptable")
  | JInt _ => Raise (TypeError "'int' object is not subscriptable")
  | JFloat _ => Raise (TypeError "'float' object is not subscriptable")
  end.

Definition dquote : string := String (ascii_of_nat 34) EmptyString.
Definition backslash : string := String (ascii_of_nat 92) EmptyString.

Definition hex_digit (n : nat) : ascii :=
  if (n <? 10)%nat then ascii_of_nat (48 + n) else ascii_of_nat (87 + n).

(** The escape of one character with [ensure_ascii=True]. *)
Definition escape_char (c : ascii) : string :=
  let n := nat_of_ascii c in
  if (n =? 34)%nat then backslash +:+ dquote
  else if (n =? 92)%nat then backslash +:+ backslash
  else if (n =? 10)%nat then backslash +:+ "n"
  else if (n =? 13)%nat then backslash +:+ "r"
  else if (n =? 9)%nat then backslash +:+ "t"
  else if (n =? 8)%nat then backslash +:+ "b"
  else if (n =? 12)%nat then backslash +:+ "f"
  else if ((n <? 32) || (126 <? n))%nat
       then backslash +:+ "u00"
            +:+ String (hex_digit (n / 16)) (String (hex_digit (n mod 16)) EmptyString)
  else String c EmptyString.

Fixpoint escape (s : string) : string :=
  match s with
  | EmptyString => EmptyString
  | String c r => escape_char c +:+ escape r
  end.

Definition dumps_str (s : string) : string := dquote +:+ escape s +:+ dquote.

Section Dumps.
(** [float.__repr__], used for the finite floats. *)
Variable float_repr : spec_float -> string.

Definition dumps_float (f : spec_float) : string :=
  match f with
  | S754_nan => "NaN"
  | S754_infinity false => "Infinity"
  | S754_infinity true => "-Infinity"
  | _ => float_repr f
  end.

(** [json.dumps(v)] with the default separators [", "] and [": "]. *)
Fixpoint dumps (v : json) : string :=
  match v with
  | JNull => "null"
  | JBool true => "true"
  | JBool false => "false"
  | JInt n => pretty n
  | JFloat f => dumps_float f
  | JStr s => dumps_str s
  | JArr l =>
      "[" +:+ (fix elems (l : list json) : string :=
                 match l with
                 | [] => EmptyString
                 | [x] => dumps x
                 | x :: r => dumps x +:+ ", " +:+ elems r
                 end) l +:+ "]"
  | JObj kvs =>
      "{" +:+ (fix pairs (kvs : list (string * json)) : string :=
                 match kvs with
                 | [] => EmptyString
                 | [(k, x)] => dumps_str k +:+ ": " +:+ dumps x
                 | (k, x) :: r => dumps_str k +:+ ": " +:+ dumps x +:+ ", " +:+ pairs r
                 end) kvs +:+ "}"
  end.
End Dumps.

End Json.

(* ===================================================================== *)
(** * Timestamps *)
(* ===================================================================== *)

(** A naive [datetime.datetime]. *)
Record datetime := {
  year : N; month : N; day : N;
  hour : N; minute : N; second : N;
  microsecond : N
}.

Module Datetime.

(** The last [w] decimal digits of [n], most significant first
    (the [%0wd] format of a number below [10^w]). *)
Fixpoint zero_pad (w : nat) (n : N) : string :=
  match w with
  | O => EmptyString
  | S w' => zero_pad w' (n / 10)%N +:+ String (ascii_of_N (48 + n mod 10)) EmptyString
  end.

(** The fractional part of the seconds, left out when it is zero. *)
Definition fraction (us : N) : string :=
  if (us =? 0)%N then EmptyString else "." +:+ zero_pad 6 us.

(** [dt.isoformat()]: [YYYY-MM-DDTHH:MM:SS], followed by [.ffffff] when
    the microsecond is not zero. *)
Definition isoformat (dt : datetime) : string :=
  zero_pad 4 (year dt) +:+ "-" +:+ zero_pad 2 (month dt) +:+ "-" +:+ zero_pad 2 (day dt)
  +:+ "T" +:+ zero_pad 2 (hour dt) +:+ ":" +:+ zero_pad 2 (minute dt)
  +:+ ":" +:+ zero_pad 2 (second dt) +:+ fraction (microsecond dt).

(** The fields are in the ranges a [datetime] allows. *)
Definition valid (dt : datetime) : Prop :=
  (1 <= year dt <= 9999 /\ 1 <= month dt <= 12 /\ 1 <= day dt <= 31 /\
   hour dt < 24 /\ minute dt < 60 /\ second dt < 60 /\ microsecond dt < 1000000)%N.

(** Chronological order: the fields compared from the year down. *)
Definition key (dt : datetime) : list N :=
  [year dt; month dt; day dt; hour dt; minute dt; second dt; microsecond dt].

Fixpoint lex_lt (a b : list N) : Prop :=
  match a, b with
  | x :: a', y :: b' => (x < y)%N \/ (x = y /\ lex_lt a' b')
  | _, _ => False
  end.

Definition lt (a b : datetime) : Prop := lex_lt (key a) (key b).

(** The same order as a three-way comparison. *)
Fixpoint lex_compare (a b : list N) : comparison :=
  match a, b with
  | [], [] => Eq
  | [], _ :: _ => Lt
  | _ :: _, [] => Gt
  | x :: a', y :: b' =>
      match (x ?= y)%N with
      | Eq => lex_compare a' b'
      | c => c
      end
  end.

Definition compare (a b : datetime) : comparison := lex_compare (key a) (key b).

End Datetime.

(* ===================================================================== *)
(** * The environment of an invocation *)
(* ===================================================================== *)

(** A submission, as far as the handler reads it: [post.id], [post.title]. *)
Record Post := { post_id : string; post_title : string }.

(** The [response] dict of [get_secret_value]; a binary secret has no
    ['SecretString'] key. *)
Record SecretResponse := { SecretString : option string }.

(** Library functions the handler calls and whose code lies outside the
    repository: [str] on a float, [json.loads], and the compound score of
    [VADER_ANALYZER.polarity_scores]. *)
Record Runtime := {
  float_str : spec_float -> string;
  json_loads : string -> result json;
  polarity_compound : string -> spec_float
}.

(** The services. Each field answers one call of the handler.
    - [get_secret_value region secret_id];
    - [hot client_id client_secret user_agent subreddit limit]: the posts
      the listing yields, and the exception that ends the iteration early,
      if any;
    - [now k]: the reading of the [k]-th call of [datetime.datetime.now()];
    - [put_item table sent it]: [None] when [batch.put_item(Item=it)]
      returns, after the items [sent] were put in this batch;
    - [batch_exit table sent pending]: [None] when the batch writer's
      [__exit__] returns ([pending] tells whether the block raised). The
      batch writer never swallows the exception of its block. *)
Record World := {
  get_secret_value : string -> string -> result SecretResponse;
  hot : json -> json -> string -> string -> nat -> list Post * option exn;
  now : nat -> datetime;
  put_item : string -> list item -> item -> option exn;
  batch_exit : string -> list item -> bool -> option exn
}.

(** What an observer of the invocation sees, in order. *)
Inductive event :=
| EvGetSecretValue (region secret_id : string)
| EvPrint (line : string)
| EvHot (client_id client_secret : json) (user_agent subreddit : string) (limit : nat)
| EvNow
| EvPutItem (table : string) (it : item)
| EvBatchExit (table : string).

(** The state of an invocation: the trace so far, the number of clock
    readings taken, and the list object bound to [processed_results]
    (the dicts it holds are updated in place through their index). *)
Record state := {
  trace : list event;
  ticks : nat;
  processed_results : list item
}.

Definition initial_state : state :=
  {| trace := []; ticks := 0; processed_results := [] |}.

(** The handler's return value. *)
Record response := { statusCode : Z; body : string }.

(* ===================================================================== *)
(** * The monad of the handler: state and exceptions *)
(* ===================================================================== *)

Definition M (A : Type) : Type := state -> state * result A.

Definition ret {A} (a : A) : M A := fun s => (s, Ok a).

Definition raise {A} (e : exn) : M A := fun s => (s, Raise e).

Definition bind {A B} (m : M A) (k : A -> M B) : M B :=
  fun s => match m s with
           | (s', Ok a) => k a s'
           | (s', Raise e) => (s', Raise e)
           end.

Declare Scope py_scope.
Delimit Scope py_scope with py.
Notation "x <- m ;; k" := (bind m (fun x => k))
  (at level 100, m at next level, right associativity) : py_scope.
Notation "m ;;; k" := (bind m (fun _ => k))
  (at level 100, right associativity) : py_scope.
Open Scope py_scope.

Definition lift {A} (r : result A) : M A := fun s => (s, r).

(** [try: body except ClientError as e: handler e]; an exception of any
    other class passes through. *)
Definition try_except_ClientError {A} (body : M A) (handler : exn -> M A) : M A :=
  fun s => match body s with
           | (s', Raise e) => if is_ClientError e then handler e s' else (s', Raise e)
           | r => r
           end.

Definition emit (ev : event) : M unit :=
  fun s => ({| trace := trace s ++ [ev]; ticks := ticks s;
               processed_results := processed_results s |}, Ok tt).

Definition print (line : string) : M unit := emit (EvPrint line).

Definition get_results : M (list item) := fun s => (s, Ok (processed_results s)).

Definition set_results (l : list item) : M unit :=
  fun s => ({| trace := trace s; ticks := ticks s; processed_results := l |}, Ok tt).

(** The items of the [put_item] calls of a trace. *)
Definition puts_of (tr : list event) : list item :=
  omap (fun ev => match ev with EvPutItem _ it => Some it | _ => None end) tr.
Arguments puts_of : simpl never.

(** The lines printed during a trace. *)
Definition printed (tr : list event) : list string :=
  omap (fun ev => match ev with EvPrint line => Some line | _ => None end) tr.

(* ===================================================================== *)
(** * The handler *)
(* ===================================================================== *)

Definition REGION_NAME : string := "eu-west-3".
Definition SECRET_NAME : string := "RedditPRAWCredentials".
Definition TABLE_NAME : string := "SentimentObserverResults".
Definition USER_AGENT : string :=
  "python:macos:sentiment.collector:v1.0 (by /u/JMatthewGutierrez)".
Definition STATUS_MESSAGE : string :=
  "Pipeline executed successfully and data loaded to DynamoDB and S3!".

(** ['Positive' if c >= 0.05 else ('Negative' if c <= -0.05 else 'Neutral')]
    (lines 69-70). *)
Definition sentiment_label (compound : spec_float) : string :=
  if Float.ge compound Float.lit_0_05 then "Positive"
  else if Float.le compound Float.lit_neg_0_05 then "Negative"
  else "Neutral".

(** The dict literal of lines 63-71; [float(c)] is [c] for a float [c]. *)
Definition build_record (subreddit timestamp : string) (post : Post)
    (compound : spec_float) : item :=
  <["SubredditName" := PyStr subreddit]>
  (<["Timestamp" := PyStr timestamp]>
  (<["PostID" := PyStr (post_id post)]>
  (<["Title" := PyStr (post_title post)]>
  (<["SentimentScore" := PyFloat compound]>
  (<["SentimentLabel" := PyStr (sentiment_label compound)]> ∅))))).

(** [d[k]] on a record. *)
Definition item_get (it : item) (k : string) : result pyval :=
  match it !! k with
  | Some v => Ok v
  | None => Raise (KeyError k)
  end.

Section Handler.

Context (rt : Runtime) (w : World).

(** ** Credential loader (lines 22-32) *)

Definition call_get_secret_value : M SecretResponse :=
  emit (EvGetSecretValue REGION_NAME SECRET_NAME) ;;;
  lift (get_secret_value w REGION_NAME SECRET_NAME).

Definition secret_error_line : string :=
  "Error: No se pudo obtener el secreto " +:+ SECRET_NAME +:+ ".".

(** The body of [get_secret] from line 25 on. The client of line 24
    ([boto3.client]) is built before the [try] and calls no service;
    its construction can raise, and is part of [invocation] below. *)
Definition get_secret : M json :=
  response <- try_except_ClientError call_get_secret_value
    (fun e => print secret_error_line ;;; raise e) ;;
  secret_string <- lift (match SecretString response with
                         | Some s => Ok s
                         | None => Raise (KeyError "SecretString")
                         end) ;;
  lift (json_loads rt secret_string).

(** ** Scoring and record building (lines 57-73) *)

Definition datetime_now : M datetime :=
  fun s => ({| trace := trace s ++ [EvNow]; ticks := S (ticks s);
               processed_results := processed_results s |},
            Ok (now w (ticks s))).

(** One turn of the loop of line 60. *)
Definition process_post (subreddit : string) (post : Post) : M unit :=
  let compound := polarity_compound rt (post_title post) in
  dt <- datetime_now ;;
  results <- get_results ;;
  set_results (results ++ [build_record subreddit (Datetime.isoformat dt) post compound]) ;;;
  results <- get_results ;;
  print ("Posts procesados y listos para carga: " +:+ pretty (length results)).

Fixpoint for_posts (subreddit : string) (posts : list Post) : M unit :=
  match posts with
  | [] => ret tt
  | post :: rest => process_post subreddit post ;;; for_posts subreddit rest
  end.

(** ** Batch persister (lines 76-88) *)

(** [Decimal(str(v))]. The string of a float is [str(f)]; a [Decimal]
    is read back from its own string unchanged. *)
Definition Decimal_of_str (v : pyval) : result Decimal.t :=
  match v with
  | PyFloat f =>
      match Decimal.of_string (float_str rt f) with
      | Some d => Ok d
      | None => Raise (InvalidOperation (float_str rt f))
      end
  | PyStr s =>
      match Decimal.of_string s with
      | Some d => Ok d
      | None => Raise (InvalidOperation s)
      end
  | PyDecimal d => Ok d
  end.

Definition batch_put_item (it : item) : M unit :=
  fun s =>
    let s' := {| trace := trace s ++ [EvPutItem TABLE_NAME it]; ticks := ticks s;
                 processed_results := processed_results s |} in
    match put_item w TABLE_NAME (puts_of (trace s)) it with
    | None => (s', Ok tt)
    | Some e => (s', Raise e)
    end.

(** The body of the loop of line 78 for the dict at index [i]: the
    assignment of line 80 updates that dict in place, then the same dict
    is handed to the batch writer. *)
Definition convert_and_put (i : nat) (it : item) : M unit :=
  score <- lift (item_get it "SentimentScore") ;;
  d <- lift (Decimal_of_str score) ;;
  results <- get_results ;;
  set_results (<[i := <["SentimentScore" := PyDecimal d]> it]> results) ;;;
  batch_put_item (<["SentimentScore" := PyDecimal d]> it).

(** [for item in processed_results]: the list iterator yields the dict
    at index [i] until [i] reaches the length of the list. *)
Fixpoint for_items (n i : nat) : M unit :=
  match n with
  | O => ret tt
  | S n' =>
      results <- get_results ;;
      match results !! i with
      | None => ret tt
      | Some it => convert_and_put i it ;;; for_items n' (S i)
      end
  end.

(** [with dynamo_table.batch_writer() as batch: body]. *)
Definition with_batch_writer (body : M unit) : M unit :=
  fun s =>
    let '(s', r) := body s in
    let pending := match r with Raise _ => true | Ok _ => false end in
    let s'' := {| trace := trace s' ++ [EvBatchExit TABLE_NAME]; ticks := ticks s';
                  processed_results := processed_results s' |} in
    match batch_exit w TABLE_NAME (puts_of (trace s')) pending with
    | Some e => (s'', Raise e)
    | None => (s'', r)
    end.

(** Lines 77-81: the writes of the batch. *)
Definition batch_write : M unit :=
  with_batch_writer (results <- get_results ;; for_items (length results) 0).

Definition persist_error_line (e : exn) : string :=
  "ERROR: Fallo al escribir en DynamoDB. " +:+ exn_str e.

Definition persist : M unit :=
  try_except_ClientError
    (batch_write ;;;
     results <- get_results ;;
     print ("Carga exitosa a DynamoDB: " +:+ pretty (length results) +:+ " elementos."))
    (fun e => print (persist_error_line e) ;;; raise e).

(** ** Content fetcher, scorer and result builder (lines 44-73) *)

Definition SUBREDDIT_NAME : string := "valencia".
Definition LIMIT_POSTS : nat := 50.

Definition fetch_and_score (PRAW_CREDENTIALS : json) : M unit :=
  client_id <- lift (Json.getitem PRAW_CREDENTIALS "client_id") ;;
  client_secret <- lift (Json.getitem PRAW_CREDENTIALS "client_secret") ;;
  emit (EvHot client_id client_secret USER_AGENT SUBREDDIT_NAME LIMIT_POSTS) ;;;
  let '(posts, failure) :=
    hot w client_id client_secret USER_AGENT SUBREDDIT_NAME LIMIT_POSTS in
  set_results [] ;;;
  for_posts SUBREDDIT_NAME posts ;;;
  match failure with Some e => raise e | None => ret tt end.

(** ** Response formatter (lines 90-96) *)

(** [[p['Title'] for p in processed_results]] *)
Fixpoint titles_of (l : list item) : result (list pyval) :=
  match l with
  | [] => Ok []
  | p :: r =>
      match item_get p "Title" with
      | Raise e => Raise e
      | Ok t => match titles_of r with
                | Raise e => Raise e
                | Ok ts => Ok (t :: ts)
                end
      end
  end.

Definition response_body (posts_count : nat) : string :=
  Json.dumps (float_str rt)
    (JObj [("posts_count", JInt (Z.of_nat posts_count));
           ("status", JStr STATUS_MESSAGE)]).

(** The text of the body: the two fields in insertion order. *)
Definition response_text (posts_count : Z) : string :=
  "{" +:+ Json.dquote +:+ "posts_count" +:+ Json.dquote +:+ ": " +:+ pretty posts_count
  +:+ ", " +:+ Json.dquote +:+ "status" +:+ Json.dquote +:+ ": "
  +:+ Json.dquote +:+ STATUS_MESSAGE +:+ Json.dquote +:+ "}".

Definition format_response : M response :=
  results <- get_results ;;
  post_titles <- lift (titles_of results) ;;
  ret {| statusCode := 200; body := response_body (length results) |}.

(** ** The entry point (lines 34-96)

    The handler from line 41 on, that is, once the handles of lines
    37-38 ([boto3.resource], [dynamo.Table]) exist. Building them
    calls no service but can raise; [invocation] below puts their
    construction, and that of the client of line 24, in front. *)
Definition lambda_handler {E C : Type} (event : E) (context : C) : M response :=
  PRAW_CREDENTIALS <- get_secret ;;
  fetch_and_score PRAW_CREDENTIALS ;;;
  persist ;;;
  format_response.

End Handler.

(** An invocation whose handles are built: it starts with an empty trace
    and no records. *)
Definition invoke {E C : Type} (rt : Runtime) (w : World) (event : E) (context : C)
  : state * result response :=
  lambda_handler rt w event context initial_state.

(** ** The handles (lines 24 and 37-38)

    [boto3.resource('dynamodb', region_name=...)] (line 37),
    [dynamo.Table(TABLE_NAME)] (line 38) and
    [boto3.client('secretsmanager', region_name=...)] (line 24, the first
    statement of [get_secret]) run, in this order, before the first call
    to a service. They build local objects from the configuration of the
    process and call no service; each of them can raise (botocore's
    [ProfileNotFound], for one), and none is inside a [try]: the
    exception leaves the handler. [None] stands for an object built. *)
Record Handles := {
  boto3_resource : string -> string -> option exn;
  dynamo_Table : string -> option exn;
  boto3_client : string -> string -> option exn
}.

Definition construct (outcome : option exn) : M unit :=
  match outcome with
  | Some e => raise e
  | None => ret tt
  end.

(** Lines 37, 38 and 24, then the rest of the handler. *)
Definition lambda_handler_from_handles {E C : Type} (h : Handles) (rt : Runtime) (w : World)
    (event : E) (context : C) : M response :=
  construct (boto3_resource h "dynamodb" REGION_NAME) ;;;
  construct (dynamo_Table h TABLE_NAME) ;;;
  construct (boto3_client h "secretsmanager" REGION_NAME) ;;;
  lambda_handler rt w event context.

(** A whole invocation, the construction of the handles included. *)
Definition invocation {E C : Type} (h : Handles) (rt : Runtime) (w : World)
    (event : E) (context : C) : state * result response :=
  lambda_handler_from_handles h rt w event context initial_state.

(** The exception of the first handle that cannot be built, if any. *)
Definition first_failure (h : Handles) : option exn :=
  match boto3_resource h "dynamodb" REGION_NAME with
  | Some e => Some e
  | None =>
      match dynamo_Table h TABLE_NAME with
      | Some e => Some e
      | None => boto3_client h "secretsmanager" REGION_NAME
      end
  end.

(* ===================================================================== *)
(** * What the loops compute *)
(* ===================================================================== *)

Section Loops.

Context (rt : Runtime) (w : World).

(** The records the loop of line 60 appends when it starts at clock
    reading [k]. *)
Fixpoint built (subreddit : string) (k : nat) (posts : list Post) : list item :=
  match posts with
  | [] => []
  | post :: rest =>
      build_record subreddit (Datetime.isoformat (now w k)) post
        (polarity_compound rt (post_title post))
      :: built subreddit (S k) rest
  end.

(** The events of that loop when [n] records are already in the list. *)
Fixpoint loop_events (n : nat) (posts : list Post) : list event :=
  match posts with
  | [] => []
  | _ :: rest =>
      EvNow :: EvPrint ("Posts procesados y listos para carga: " +:+ pretty (S n))
      :: loop_events (S n) rest
  end.

(** Line 80 on one record. *)
Definition convert (it : item) : result item :=
  match item_get it "SentimentScore" with
  | Raise e => Raise e
  | Ok score =>
      match Decimal_of_str rt score with
      | Raise e => Raise e
      | Ok d => Ok (<["SentimentScore" := PyDecimal d]> it)
      end
  end.

(** The loop of line 78 over the records [todo] after the items [sent]
    were put: the records it converted and handed to [put_item], in
    order, and the exception that stopped it, if any. *)
Fixpoint persist_run (sent todo : list item) : list item * option exn :=
  match todo with
  | [] => ([], None)
  | it :: rest =>
      match convert it with
      | Raise e => ([], Some e)
      | Ok it' =>
          match put_item w TABLE_NAME sent it' with
          | Some e => ([it'], Some e)
          | None =>
              let '(l, r) := persist_run (sent ++ [it']) rest in (it' :: l, r)
          end
      end
  end.

(** The whole [with] block of lines 77-81: the records handed to
    [put_item], and the exception that leaves the block, if any (the one
    [__exit__] raises takes the place of the one of the loop). *)
Definition batch_outcome (sent todo : list item) : list item * option exn :=
  let '(l, oe) := persist_run sent todo in
  (l, match batch_exit w TABLE_NAME (sent ++ l)
              (match oe with Some _ => true | None => false end) with
      | Some e => Some e
      | None => oe
      end).

(** What lines 31-32 and 45-46 make of the response of the secret
    store: the two credentials, or the exception of the first step that
    fails. *)
Definition credentials_of (response : SecretResponse) : result (json * json) :=
  match SecretString response with
  | None => Raise (KeyError "SecretString")
  | Some secret_string =>
      match json_loads rt secret_string with
      | Raise e => Raise e
      | Ok creds =>
          match Json.getitem creds "client_id" with
          | Raise e => Raise e
          | Ok client_id =>
              match Json.getitem creds "client_secret" with
              | Raise e => Raise e
              | Ok client_secret => Ok (client_id, client_secret)
              end
          end
      end
  end.

(** The state once [posts] were fetched and scored in a fresh
    invocation whose credentials were [client_id] and [client_secret]. *)
Definition scored_state (client_id client_secret : json) (posts : list Post) : state :=
  {| trace := EvGetSecretValue REGION_NAME SECRET_NAME
              :: EvHot client_id client_secret USER_AGENT SUBREDDIT_NAME LIMIT_POSTS
              :: loop_events 0 posts;
     ticks := length posts;
     processed_results := built SUBREDDIT_NAME 0 posts |}.

End Loops.

(* ===================================================================== *)
(** * Sample environments *)
(* ===================================================================== *)

Module Sample.

(** The float nearest to 0.1, whose string is ["0.1"]. *)
Definition float_0_1 : spec_float := S754_finite false 7205759403792794 (-56).

(** [str] on the scores of the sample scorer below; the last case is
    never reached with them. *)
Definition str_of_float (f : spec_float) : string :=
  match f with
  | S754_zero false => "0.0"
  | S754_zero true => "-0.0"
  | S754_infinity false => "inf"
  | S754_infinity true => "-inf"
  | S754_nan => "nan"
  | S754_finite false 7205759403792794 (-56) => "0.1"
  | S754_finite true 7205759403792794 (-56) => "-0.1"
  | S754_finite _ _ _ => "nan"
  end.

Definition credentials : json :=
  JObj [("client_id", JStr "my-client-id"); ("client_secret", JStr "my-client-secret")].

(** A payload without the ['client_secret'] key. *)
Definition credentials_without_secret : json :=
  JObj [("client_id", JStr "my-client-id")].

Definition secret_text : string := Json.dumps str_of_float credentials.
Definition partial_secret_text : string :=
  Json.dumps str_of_float credentials_without_secret.

Definition loads (s : string) : result json :=
  if String.eqb s secret_text then Ok credentials
  else if String.eqb s partial_secret_text then Ok credentials_without_secret
  else Raise (OtherError "JSONDecodeError" "Expecting value").

(** A scorer that knows three titles. *)
Definition compound (title : string) : spec_float :=
  if String.eqb title "good" then float_0_1
  else if String.eqb title "bad" then SFopp float_0_1
  else S754_zero false.

Definition runtime : Runtime :=
  {| float_str := str_of_float; json_loads := loads; polarity_compound := compound |}.

(** A clock that advances by one microsecond between two readings. *)
Definition clock (k : nat) : datetime :=
  {| year := 2024; month := 5; day := 17; hour := 9; minute := 3; second := 0;
     microsecond := N.of_nat k + 1 |}.

Definition post (i : nat) : Post :=
  {| post_id := "t3_" +:+ pretty i;
     post_title := if Nat.even i then "good" else if Nat.even (i / 2) then "bad" else "meh" |}.

Definition posts (n : nat) : list Post := post <$> seq 0 n.

(** Every service answers; the listing yields [n] posts. *)
Definition world (n : nat) : World :=
  {| get_secret_value := fun _ _ => Ok {| SecretString := Some secret_text |};
     hot := fun _ _ _ _ _ => (posts n, None);
     now := clock;
     put_item := fun _ _ _ => None;
     batch_exit := fun _ _ _ => None |}.

(** The table answers the request that flushes the batch, when the
    block is left, with the exception [e]. *)
Definition world_write_fails (n : nat) (e : exn) : World :=
  {| get_secret_value := get_secret_value (world n);
     hot := hot (world n);
     now := clock;
     put_item := fun _ _ _ => None;
     batch_exit := fun _ sent pending =>
                     match sent with
                     | [] => None
                     | _ :: _ => if pending then None else Some e
                     end |}.

(** The secret store answers with the exception [e]. *)
Definition world_secret_fails (e : exn) : World :=
  {| get_secret_value := fun _ _ => Raise e;
     hot := hot (world 3);
     now := clock;
     put_item := fun _ _ _ => None;
     batch_exit := fun _ _ _ => None |}.

(** The stored secret has no ['client_secret'] key. *)
Definition world_partial_secret : World :=
  {| get_secret_value := fun _ _ => Ok {| SecretString := Some partial_secret_text |};
     hot := hot (world 3);
     now := clock;
     put_item := fun _ _ _ => None;
     batch_exit := fun _ _ _ => None |}.

(** The table rejects the request: a [ClientError]. *)
Definition validation_error : exn :=
  ClientError "An error occurred (ValidationException) when calling the BatchWriteItem operation: One or more parameter values were invalid".

(** The secret does not exist: a [ClientError]. *)
Definition not_found_error : exn :=
  ClientError "An error occurred (ResourceNotFoundException) when calling the GetSecretValue operation: Secrets Manager can't find the specified secret.".

(** The endpoint cannot be reached: botocore raises
    [EndpointConnectionError], which is not a [ClientError]. *)
Definition unreachable_error (url : string) : exn :=
  OtherError "EndpointConnectionError" ("Could not connect to the endpoint URL: " +:+ url).

End Sample.

(* ===================================================================== *)
(** * Reading a trace *)
(* ===================================================================== *)

(** The line of line 73 when the list holds [n] records, and the line of
    line 83 after [n] records were written. *)
Definition progress_line (n : nat) : string :=
  "Posts procesados y listos para carga: " +:+ pretty n.

Definition success_line (n : nat) : string :=
  "Carga exitosa a DynamoDB: " +:+ pretty n +:+ " elementos.".

(** The stage of the pipeline a call belongs to: 0 for the secret store,
    1 for the listing, 2 for a clock reading (one per scored post), 3 for
    a [put_item], 4 for the exit of the batch writer. Printing belongs to
    no stage. *)
Definition stage_of (ev : event) : option nat :=
  match ev with
  | EvGetSecretValue _ _ => Some 0%nat
  | EvHot _ _ _ _ _ => Some 1%nat
  | EvNow => Some 2%nat
  | EvPutItem _ _ => Some 3%nat
  | EvBatchExit _ => Some 4%nat
  | EvPrint _ => None
  end.

Definition stages (tr : list event) : list nat := omap stage_of tr.
Arguments stages : simpl never.

(** More sample environments. *)
Module Scenario.

(** The secret is binary: the response has no ['SecretString']. *)
Definition world_binary_secret : World :=
{| get_secret_value := fun _ _ => Ok {| SecretString := None |};
   hot := hot (Sample.world 3);
   now := Sample.clock;
   put_item := fun _ _ _ => None;
   batch_exit := fun _ _ _ => None |}.

(** The secret is a text that is not JSON. *)
Definition world_garbled_secret : World :=
{| get_secret_value := fun _ _ => Ok {| SecretString := Some "client_id=abc" |};
   hot := hot (Sample.world 3);
   now := Sample.clock;
   put_item := fun _ _ _ => None;
   batch_exit := fun _ _ _ => None |}.

(** A runtime whose [json.loads] reads every secret as the list
  [["my-client-id", "my-client-secret"]]. *)
Definition runtime_list_secret : Runtime :=
{| float_str := Sample.str_of_float;
   json_loads := fun _ => Ok (JArr [JStr "my-client-id"; JStr "my-client-secret"]);
   polarity_compound := Sample.compound |}.

(** The listing yields [n] posts and then fails with [e]. *)
Definition world_listing_fails (n : nat) (e : exn) : World :=
{| get_secret_value := get_secret_value (Sample.world n);
   hot := fun _ _ _ _ _ => (Sample.posts n, Some e);
   now := Sample.clock;
   put_item := fun _ _ _ => None;
   batch_exit := fun _ _ _ => None |}.

(** Reddit answers too many requests: a response error of PRAW. *)
Definition too_many_requests : exn :=
OtherError "TooManyRequests" "received 429 HTTP response".

(** [put_item] raises [e] when [k] items were put before. *)
Definition world_put_fails_at (n k : nat) (e : exn) : World :=
{| get_secret_value := get_secret_value (Sample.world n);
   hot := hot (Sample.world n);
   now := Sample.clock;
   put_item := fun _ sent _ => if (length sent =? k)%nat then Some e else None;
   batch_exit := fun _ _ _ => None |}.

(** A clock that gives the same instant at every reading: readings
    closer to each other than the microsecond the clock resolves. *)
Definition frozen_clock (k : nat) : datetime := Sample.clock 0.

(** Every service answers, the listing yields [n] posts, and the clock
    does not move during the run. *)
Definition world_frozen_clock (n : nat) : World :=
  {| get_secret_value := get_secret_value (Sample.world n);
     hot := hot (Sample.world n);
     now := frozen_clock;
     put_item := fun _ _ _ => None;
     batch_exit := fun _ _ _ => None |}.

(** A clock set back by one second after its first reading. *)
Definition clock_set_back (k : nat) : datetime :=
  match k with
  | O => {| year := 2024; month := 5; day := 17; hour := 9; minute := 3; second := 1;
            microsecond := 0 |}
  | S _ => Sample.clock k
  end.

Definition world_clock_set_back (n : nat) : World :=
  {| get_secret_value := get_secret_value (Sample.world n);
     hot := hot (Sample.world n);
     now := clock_set_back;
     put_item := fun _ _ _ => None;
     batch_exit := fun _ _ _ => None |}.

(** Every handle is built. *)
Definition handles_built : Handles :=
  {| boto3_resource := fun _ _ => None;
     dynamo_Table := fun _ => None;
     boto3_client := fun _ _ => None |}.

(** The profile named in the environment of the process does not
    exist: botocore raises [ProfileNotFound], which is not a
    [ClientError]. *)
Definition profile_not_found : exn :=
  OtherError "ProfileNotFound" "The config profile (default) could not be found".

(** The first handle (line 37) cannot be built. *)
Definition handles_no_profile : Handles :=
  {| boto3_resource := fun _ _ => Some profile_not_found;
     dynamo_Table := fun _ => None;
     boto3_client := fun _ _ => Some profile_not_found |}.

End Scenario.

(* ===================================================================== *)
(** * The thresholds of the label rule, on exact values *)
(* ===================================================================== *)

Module FloatFacts.
Import Float.

Lemma digits2_pos_bounds (m : positive) :
  2 ^ (Z.pos (digits2_pos m) - 1) <= Z.pos m < 2 ^ Z.pos (digits2_pos m).
Proof.
  induction m as [p IH | p IH |]; cbn [digits2_pos].
  - rewrite Pos2Z.inj_succ.
    replace (Z.succ (Z.pos (digits2_pos p)) - 1) with (Z.succ (Z.pos (digits2_pos p) - 1)) by lia.
    rewrite !Z.pow_succ_r by lia. lia.
  - rewrite Pos2Z.inj_succ.
    replace (Z.succ (Z.pos (digits2_pos p)) - 1) with (Z.succ (Z.pos (digits2_pos p) - 1)) by lia.
    rewrite !Z.pow_succ_r by lia. lia.
  - cbn. lia.
Qed.

(** What [bounded] says about a binary64 mantissa and exponent. *)
Lemma bounded_inv (m : positive) (e : Z) :
  bounded prec emax m e = true ->
  -1074 <= e <= 971 /\ Z.pos m < 9007199254740992 /\
  (-1074 < e -> 4503599627370496 <= Z.pos m).
Proof.
  unfold bounded, canonical_mantissa, fexp, SpecFloat.emin, prec, emax.
  intros H. apply andb_prop in H as [H1 H2].
  apply Z.eqb_eq in H1. apply Z.leb_le in H2.
  pose proof (digits2_pos_bounds m) as [Hlo Hhi].
  set (d := Z.pos (digits2_pos m)) in *.
  assert (Hd : 0 < d) by (unfold d; lia).
  split; [lia|]. split.
  - assert (d <= 53) by lia.
    change 9007199254740992 with (2 ^ 53).
    eapply Z.lt_le_trans; [exact Hhi|]. apply Z.pow_le_mono_r; lia.
  - intros He. assert (d = 53) by lia.
    change 4503599627370496 with (2 ^ 52).
    replace 52 with (d - 1) by lia. exact Hlo.
Qed.

Lemma ge_lit_0_05_exact (x : spec_float) :
  is_binary64 x = true ->
  (ge x lit_0_05 = true <-> value_ge x 5 100).
Proof.
  destruct x as [s | s | | s m e]; cbn [is_binary64 valid_binary]; intros Hv.
  - cbn. split; [discriminate | lia].
  - destruct s; cbn; split; congruence.
  - cbn. split; [discriminate | tauto].
  - apply bounded_inv in Hv as (He & Hm & Hn).
    destruct s.
    + cbn [ge lit_0_05 SFleb SFcompare value_ge].
      split; [discriminate|].
      destruct (0 <=? e) eqn:E.
      * apply Z.leb_le in E. assert (0 < 2 ^ e) by (apply Z.pow_pos_nonneg; lia). nia.
      * assert (0 < 2 ^ (- e)) by (apply Z.pow_pos_nonneg; lia). nia.
    + unfold ge, lit_0_05, SFleb, SFcompare, value_ge.
      destruct (Z.compare_spec (-57) e) as [E | E | E].
      * subst e. change (0 <=? -57) with false. cbv iota.
        change (2 ^ (- (-57))) with 144115188075855872.
        change (Pos.compare_cont Eq 7205759403792794 m)
          with (7205759403792794 ?= Z.pos m).
        destruct (Z.compare_spec 7205759403792794 (Z.pos m));
          split; intros; try lia; try discriminate; auto.
      * split; [intros _ | auto].
        destruct (0 <=? e) eqn:E0.
        -- apply Z.leb_le in E0. assert (0 < 2 ^ e) by (apply Z.pow_pos_nonneg; lia). nia.
        -- apply Z.leb_gt in E0. specialize (Hn ltac:(lia)).
           assert (H56 : 2 ^ (- e) <= 2 ^ 56) by (apply Z.pow_le_mono_r; lia).
           change (2 ^ 56) with 72057594037927936 in H56.
           lia.
      * split; [discriminate|].
        destruct (0 <=? e) eqn:E0; [apply Z.leb_le in E0; lia|].
        assert (H58 : 2 ^ 58 <= 2 ^ (- e)) by (apply Z.pow_le_mono_r; lia).
        change (2 ^ 58) with 288230376151711744 in H58.
        lia.
Qed.

(** [x <= -0.05] is [-x >= 0.05], on floats and on their values. *)
Lemma le_neg_lit_opp (x : spec_float) :
  le x lit_neg_0_05 = ge (SFopp x) lit_0_05.
Proof.
  unfold le, ge, lit_neg_0_05, lit_0_05.
  destruct x as [s | s | | s m e]; try reflexivity.
  - destruct s; reflexivity.
  - destruct s; cbn [SFopp negb SFleb SFcompare]; [| reflexivity].
    rewrite (Z.compare_antisym e (-57)).
    destruct (e ?= -57); cbn [CompOpp]; try reflexivity.
    rewrite Pos.compare_cont_antisym. reflexivity.
Qed.

Lemma value_le_opp (x : spec_float) (n : Z) (d : positive) :
  value_le x (- n) d <-> value_ge (SFopp x) n d.
Proof.
  destruct x as [s | s | | s m e]; cbn [value_le value_ge SFopp].
  - lia.
  - destruct s; cbn; split; congruence.
  - tauto.
  - destruct (0 <=? e); destruct s; cbn [negb]; lia.
Qed.

Lemma is_binary64_opp (x : spec_float) : is_binary64 (SFopp x) = is_binary64 x.
Proof. destruct x; reflexivity. Qed.

Lemma le_lit_neg_0_05_exact (x : spec_float) :
  is_binary64 x = true ->
  (le x lit_neg_0_05 = true <-> value_le x (-5) 100).
Proof.
  intros Hv. rewrite le_neg_lit_opp.
  etransitivity.
  - apply ge_lit_0_05_exact. rewrite is_binary64_opp. exact Hv.
  - symmetry. exact (value_le_opp x 5 100).
Qed.

(** No value is both at least 5/100 and at most -5/100. *)
Lemma value_ge_le_exclusive (x : spec_float) :
  value_ge x 5 100 -> value_le x (-5) 100 -> False.
Proof.
  destruct x as [s | s | | s m e]; cbn [value_ge value_le]; try lia; try congruence.
  destruct (0 <=? e) eqn:E.
  - apply Z.leb_le in E. assert (0 < 2 ^ e) by (apply Z.pow_pos_nonneg; lia). nia.
  - assert (0 < 2 ^ (- e)) by (apply Z.pow_pos_nonneg; lia). nia.
Qed.

End FloatFacts.

(* ===================================================================== *)
(** * Running the monad *)
(* ===================================================================== *)

(** Closes a goal [it ∈ l -> _] when [l] computes to the empty list. *)
Ltac no_item := let H := fresh "H" in intros H; by apply elem_of_nil in H.

Lemma bind_ok {A B} (m : M A) (k : A -> M B) s s' a :
  m s = (s', Ok a) -> bind m k s = k a s'.
Proof. unfold bind. intros ->. reflexivity. Qed.

Lemma bind_raise {A B} (m : M A) (k : A -> M B) s s' e :
  m s = (s', Raise e) -> bind m k s = (s', Raise e).
Proof. unfold bind. intros ->. reflexivity. Qed.

Lemma bind_ok_inv {A B} (m : M A) (k : A -> M B) s s' b :
  bind m k s = (s', Ok b) -> exists a s1, m s = (s1, Ok a) /\ k a s1 = (s', Ok b).
Proof.
  unfold bind. destruct (m s) as [s1 [a | e]]; intros H.
  - eauto.
  - discriminate.
Qed.

Lemma bind_assoc {A B D} (m : M A) (f : A -> M B) (k : B -> M D) s :
  bind m (fun a => bind (f a) k) s = bind (bind m f) k s.
Proof. unfold bind. destruct (m s) as [s1 [a | e]]; reflexivity. Qed.

Lemma append_String (c : ascii) (a b : string) :
  String c a +:+ b = String c (a +:+ b).
Proof. reflexivity. Qed.

Lemma append_assoc (a b c : string) : (a +:+ b) +:+ c = a +:+ (b +:+ c).
Proof.
  induction a as [| x a IH]; [reflexivity |].
  rewrite !append_String. f_equal. exact IH.
Qed.

(** A state is determined by its three components. *)
Lemma state_eq (s : state) tr k l :
  trace s = tr -> ticks s = k -> processed_results s = l ->
  s = {| trace := tr; ticks := k; processed_results := l |}.
Proof. destruct s; cbn; intros; subst; reflexivity. Qed.

Lemma puts_of_app (a b : list event) : puts_of (a ++ b) = puts_of a ++ puts_of b.
Proof. unfold puts_of. apply omap_app. Qed.

Lemma puts_of_put_events table (l : list item) : puts_of (EvPutItem table <$> l) = l.
Proof.
  induction l as [| x l IH]; [reflexivity |].
  change (x :: puts_of (EvPutItem table <$> l) = x :: l). f_equal. exact IH.
Qed.

(* ===================================================================== *)
(** * The scoring loop *)
(* ===================================================================== *)

Section ScoringLoop.

Context (rt : Runtime) (w : World).

Lemma for_posts_run subreddit (posts : list Post) (s : state) :
  for_posts rt w subreddit posts s =
  ({| trace := trace s ++ loop_events (length (processed_results s)) posts;
      ticks := ticks s + length posts;
      processed_results := processed_results s ++ built rt w subreddit (ticks s) posts |},
   Ok tt).
Proof.
  revert s. induction posts as [| post rest IH]; intros s.
  - cbn. unfold ret. f_equal.
    apply state_eq; [symmetry; apply app_nil_r | lia | symmetry; apply app_nil_r].
  - cbn [for_posts]. unfold bind at 1. unfold process_post.
    cbn. rewrite IH. cbn. f_equal. f_equal.
    + rewrite <- !app_assoc. cbn. rewrite length_app. cbn.
      replace (length (processed_results s) + 1)%nat
        with (S (length (processed_results s))) by lia.
      reflexivity.
    + lia.
    + rewrite <- app_assoc. reflexivity.
Qed.

Lemma length_built subreddit k posts : length (built rt w subreddit k posts) = length posts.
Proof. revert k. induction posts; intros k; cbn; [reflexivity | f_equal; apply IHposts]. Qed.

Lemma built_lookup subreddit k posts i post :
  posts !! i = Some post ->
  built rt w subreddit k posts !! i =
  Some (build_record subreddit (Datetime.isoformat (now w (k + i))) post
          (polarity_compound rt (post_title post))).
Proof.
  revert k i. induction posts as [| p rest IH]; intros k i H; [discriminate |].
  destruct i as [| i]; cbn [built].
  - cbn in H. inversion H; subst. replace (k + 0)%nat with k by lia. reflexivity.
  - change (built rt w subreddit (S k) rest !! i = Some
      (build_record subreddit (Datetime.isoformat (now w (k + S i))) post
         (polarity_compound rt (post_title post)))).
    rewrite (IH (S k) i H). replace (S k + i)%nat with (k + S i)%nat by lia. reflexivity.
Qed.

Lemma built_lookup_inv subreddit k posts i (r : item) :
  built rt w subreddit k posts !! i = Some r ->
  exists post, posts !! i = Some post /\
    r = build_record subreddit (Datetime.isoformat (now w (k + i))) post
          (polarity_compound rt (post_title post)).
Proof.
  intros H. pose proof (lookup_lt_Some _ _ _ H) as Hlt. rewrite length_built in Hlt.
  destruct (lookup_lt_is_Some_2 posts i Hlt) as [post Hpost].
  exists post. split; [exact Hpost |].
  rewrite (built_lookup subreddit k posts i post Hpost) in H. congruence.
Qed.

Lemma puts_of_loop_events n posts : puts_of (loop_events n posts) = [].
Proof.
  revert n. induction posts as [| p rest IH]; intros n; [reflexivity |].
  exact (IH (S n)).
Qed.

End ScoringLoop.

(* ===================================================================== *)
(** * The persisting loop *)
(* ===================================================================== *)

Section PersistLoop.

Context (rt : Runtime) (w : World).

Lemma convert_and_put_run (done todo : list item) (it : item) (s : state) :
  processed_results s = done ++ it :: todo ->
  convert_and_put rt w (length done) it s =
  match convert rt it with
  | Raise e => (s, Raise e)
  | Ok it' =>
      ({| trace := trace s ++ [EvPutItem TABLE_NAME it']; ticks := ticks s;
          processed_results := done ++ it' :: todo |},
       match put_item w TABLE_NAME (puts_of (trace s)) it' with
       | None => Ok tt
       | Some e => Raise e
       end)
  end.
Proof.
  intros Hres. unfold convert_and_put, convert, bind, lift.
  destruct (item_get it "SentimentScore") as [score | e]; [| reflexivity].
  destruct (Decimal_of_str rt score) as [d | e]; [| reflexivity].
  unfold get_results, set_results, batch_put_item. cbn.
  rewrite Hres.
  replace (<[length done := <["SentimentScore" := PyDecimal d]> it]> (done ++ it :: todo))
    with (done ++ <["SentimentScore" := PyDecimal d]> it :: todo).
  - destruct (put_item w TABLE_NAME (puts_of (trace s))
                (<["SentimentScore" := PyDecimal d]> it)); reflexivity.
  - rewrite insert_app_r_alt by lia.
    replace (length done - length done)%nat with 0%nat by lia. reflexivity.
Qed.

Lemma for_items_run (n : nat) (done todo : list item) (s : state) :
  processed_results s = done ++ todo ->
  (length todo <= n)%nat ->
  for_items rt w n (length done) s =
  (let '(l, oe) := persist_run rt w (puts_of (trace s)) todo in
   ({| trace := trace s ++ (EvPutItem TABLE_NAME <$> l); ticks := ticks s;
       processed_results := done ++ l ++ drop (length l) todo |},
    match oe with None => Ok tt | Some e => Raise e end)).
Proof.
  revert done todo s. induction n as [| n IH]; intros done todo s Hres Hlen.
  - destruct todo; [| cbn in Hlen; lia]. cbn. unfold ret. f_equal.
    apply state_eq; [symmetry; apply app_nil_r | reflexivity | exact Hres].
  - cbn [for_items]. unfold bind at 1. unfold get_results at 1.
    rewrite Hres. destruct todo as [| it rest].
    + rewrite app_nil_r. rewrite lookup_ge_None_2 by lia.
      cbn. unfold ret. f_equal.
      apply state_eq; [symmetry; apply app_nil_r | reflexivity | exact Hres].
    + rewrite lookup_app_r by lia.
      replace (length done - length done)%nat with 0%nat by lia.
      cbn [lookup list_lookup]. cbn [persist_run].
      unfold bind. rewrite (convert_and_put_run done rest it s Hres).
      destruct (convert rt it) as [it' | e].
      * destruct (put_item w TABLE_NAME (puts_of (trace s)) it') as [e |].
        -- cbn. reflexivity.
        -- set (s1 := {| trace := trace s ++ [EvPutItem TABLE_NAME it'];
                         ticks := ticks s;
                         processed_results := done ++ it' :: rest |}).
           replace (S (length done)) with (length (done ++ [it']))
             by (rewrite length_app; cbn; lia).
           rewrite (IH (done ++ [it']) rest s1).
           ++ cbn [trace s1]. unfold s1 at 1. cbn [trace].
              rewrite puts_of_app. change (puts_of [EvPutItem TABLE_NAME it']) with [it'].
              destruct (persist_run rt w (puts_of (trace s) ++ [it']) rest) as [l oe].
              cbn. f_equal. f_equal.
              ** rewrite <- app_assoc. reflexivity.
              ** rewrite <- app_assoc. reflexivity.
           ++ unfold s1. cbn. rewrite <- app_assoc. reflexivity.
           ++ cbn in Hlen. lia.
      * cbn. f_equal. apply state_eq; [symmetry; apply app_nil_r | reflexivity | exact Hres].
Qed.

End PersistLoop.

(* ===================================================================== *)
(** * The stages *)
(* ===================================================================== *)

Section Stages.

Context (rt : Runtime) (w : World).

Lemma get_secret_run (s : state) :
  get_secret rt w s =
  match get_secret_value w REGION_NAME SECRET_NAME with
  | Raise e =>
      ({| trace := trace s ++ EvGetSecretValue REGION_NAME SECRET_NAME
                   :: (if is_ClientError e then [EvPrint secret_error_line] else []);
          ticks := ticks s; processed_results := processed_results s |},
       Raise e)
  | Ok response =>
      ({| trace := trace s ++ [EvGetSecretValue REGION_NAME SECRET_NAME];
          ticks := ticks s; processed_results := processed_results s |},
       match SecretString response with
       | Some secret_string => json_loads rt secret_string
       | None => Raise (KeyError "SecretString")
       end)
  end.
Proof.
  unfold get_secret, call_get_secret_value, try_except_ClientError, bind, emit, lift, print.
  cbn.
  destruct (get_secret_value w REGION_NAME SECRET_NAME) as [response | e].
  - destruct (SecretString response); reflexivity.
  - destruct (is_ClientError e); cbn.
    + rewrite <- app_assoc. reflexivity.
    + reflexivity.
Qed.

Lemma fetch_and_score_run (creds : json) (s : state) :
  fetch_and_score rt w creds s =
  match Json.getitem creds "client_id" with
  | Raise e => (s, Raise e)
  | Ok client_id =>
      match Json.getitem creds "client_secret" with
      | Raise e => (s, Raise e)
      | Ok client_secret =>
          let '(posts, failure) :=
            hot w client_id client_secret USER_AGENT SUBREDDIT_NAME LIMIT_POSTS in
          ({| trace := trace s
                       ++ EvHot client_id client_secret USER_AGENT SUBREDDIT_NAME LIMIT_POSTS
                       :: loop_events 0 posts;
              ticks := ticks s + length posts;
              processed_results := built rt w SUBREDDIT_NAME (ticks s) posts |},
           match failure with Some e => Raise e | None => Ok tt end)
      end
  end.
Proof.
  unfold fetch_and_score, bind at 1, lift at 1.
  destruct (Json.getitem creds "client_id") as [cid | e]; [| reflexivity].
  unfold bind at 1, lift at 1.
  destruct (Json.getitem creds "client_secret") as [csec | e]; [| reflexivity].
  unfold bind at 1, emit at 1.
  destruct (hot w cid csec USER_AGENT SUBREDDIT_NAME LIMIT_POSTS) as [posts failure].
  unfold bind at 1, set_results at 1.
  unfold bind at 1. rewrite for_posts_run. cbn.
  rewrite <- app_assoc. cbn.
  destruct failure; reflexivity.
Qed.

Lemma batch_write_run (s : state) :
  batch_write rt w s =
  (let '(l, oe) := batch_outcome rt w (puts_of (trace s)) (processed_results s) in
   ({| trace := trace s ++ (EvPutItem TABLE_NAME <$> l) ++ [EvBatchExit TABLE_NAME];
       ticks := ticks s;
       processed_results := l ++ drop (length l) (processed_results s) |},
    match oe with None => Ok tt | Some e => Raise e end)).
Proof.
  unfold batch_write, with_batch_writer, batch_outcome, bind, get_results.
  change (for_items rt w (length (processed_results s)) 0 s)
    with (for_items rt w (length (processed_results s)) (length (@nil item)) s).
  rewrite (for_items_run rt w (length (processed_results s)) [] (processed_results s) s
             eq_refl (le_n _)).
  destruct (persist_run rt w (puts_of (trace s)) (processed_results s)) as [l oe].
  cbn [trace ticks processed_results app].
  rewrite puts_of_app, puts_of_put_events, <- app_assoc.
  destruct oe as [e |];
    destruct (batch_exit w TABLE_NAME (puts_of (trace s) ++ l) _); reflexivity.
Qed.

Lemma persist_run_stage (s : state) :
  persist rt w s =
  (let '(l, oe) := batch_outcome rt w (puts_of (trace s)) (processed_results s) in
   let results := l ++ drop (length l) (processed_results s) in
   ({| trace := trace s ++ (EvPutItem TABLE_NAME <$> l) ++ EvBatchExit TABLE_NAME
                :: match oe with
                   | None => [EvPrint ("Carga exitosa a DynamoDB: "
                                       +:+ pretty (length results) +:+ " elementos.")]
                   | Some e =>
                       if is_ClientError e then [EvPrint (persist_error_line e)] else []
                   end;
       ticks := ticks s;
       processed_results := results |},
    match oe with None => Ok tt | Some e => Raise e end)).
Proof.
  unfold persist, try_except_ClientError, bind at 1. rewrite batch_write_run.
  destruct (batch_outcome rt w (puts_of (trace s)) (processed_results s)) as [l [e |]].
  - destruct (is_ClientError e); cbn.
    + rewrite <- !app_assoc. reflexivity.
    + reflexivity.
  - cbn. rewrite <- !app_assoc. reflexivity.
Qed.

Lemma titles_of_ok (l : list item) :
  Forall (fun it => is_Some (it !! "Title")) l -> exists ts, titles_of l = Ok ts.
Proof.
  induction 1 as [| it l [t Ht] _ [ts IH]]; cbn.
  - eauto.
  - unfold item_get. rewrite Ht, IH. eauto.
Qed.

Lemma format_response_ok (s : state) :
  Forall (fun it => is_Some (it !! "Title")) (processed_results s) ->
  format_response rt s =
  (s, Ok {| statusCode := 200; body := response_body rt (length (processed_results s)) |}).
Proof.
  intros H. destruct (titles_of_ok _ H) as [ts Hts].
  unfold format_response, bind, get_results, lift, ret. rewrite Hts. reflexivity.
Qed.

Lemma format_response_state (s : state) : (format_response rt s).1 = s.
Proof.
  unfold format_response, bind, get_results, lift, ret.
  destruct (titles_of (processed_results s)); reflexivity.
Qed.

Lemma response_body_text (n : nat) : response_body rt n = response_text (Z.of_nat n).
Proof.
  unfold response_body, response_text. cbn [Json.dumps].
  change (Json.dumps_str "posts_count") with (Json.dquote +:+ "posts_count" +:+ Json.dquote).
  change (Json.dumps_str "status") with (Json.dquote +:+ "status" +:+ Json.dquote).
  change (Json.dumps_str STATUS_MESSAGE)
    with (Json.dquote +:+ STATUS_MESSAGE +:+ Json.dquote).
  rewrite !append_assoc. reflexivity.
Qed.

(** Whatever it returns, the formatter leaves the state alone, and a
    response has status 200 and counts the records. *)
Lemma format_response_inv (s s' : state) (r : response) :
  format_response rt s = (s', Ok r) ->
  s' = s /\ r = {| statusCode := 200;
                   body := response_body rt (length (processed_results s)) |}.
Proof.
  unfold format_response, bind, get_results, lift, ret.
  destruct (titles_of (processed_results s)); intros H; inversion H; auto.
Qed.

End Stages.

(* ===================================================================== *)
(** * Records through the persister *)
(* ===================================================================== *)

Section Records.

Context (rt : Runtime) (w : World).

Lemma convert_inv (it it' : item) :
  convert rt it = Ok it' ->
  exists v d, it !! "SentimentScore" = Some v /\ Decimal_of_str rt v = Ok d /\
              it' = <["SentimentScore" := PyDecimal d]> it.
Proof.
  unfold convert, item_get.
  destruct (it !! "SentimentScore") as [v |]; [| discriminate].
  destruct (Decimal_of_str rt v) as [d | e] eqn:Hd; [| discriminate].
  intros H. injection H as <-. exists v, d. auto.
Qed.

Lemma convert_other_fields (it it' : item) (k : string) :
  convert rt it = Ok it' -> k <> "SentimentScore" -> it' !! k = it !! k.
Proof.
  intros H Hk. apply convert_inv in H as (v & d & _ & _ & ->).
  apply lookup_insert_ne. congruence.
Qed.

(** The records the loop handed over are the conversions of a prefix of
    the list, and of the whole list when nothing stopped the loop. *)
Lemma persist_run_spec (sent todo l : list item) (oe : option exn) :
  persist_run rt w sent todo = (l, oe) ->
  Forall2 (fun it it' => convert rt it = Ok it') (take (length l) todo) l /\
  (oe = None -> length l = length todo).
Proof.
  revert sent l oe. induction todo as [| it rest IH]; intros sent l oe; cbn [persist_run].
  - intros H. inversion H; subst. split; [constructor | reflexivity].
  - destruct (convert rt it) as [it' | e] eqn:Hc.
    + destruct (put_item w TABLE_NAME sent it') as [e |].
      * intros H. inversion H; subst. cbn. split; [| discriminate].
        constructor; [exact Hc | constructor].
      * destruct (persist_run rt w (sent ++ [it']) rest) as [l' oe'] eqn:Hrun.
        intros H. inversion H; subst.
        destruct (IH _ _ _ Hrun) as [Hall Hlen]. cbn. split.
        -- constructor; [exact Hc | exact Hall].
        -- intros Hn. f_equal. exact (Hlen Hn).
    + intros H. inversion H; subst. split; [constructor | discriminate].
Qed.

Lemma batch_outcome_spec (sent todo l : list item) (oe : option exn) :
  batch_outcome rt w sent todo = (l, oe) ->
  Forall2 (fun it it' => convert rt it = Ok it') (take (length l) todo) l /\
  (oe = None -> length l = length todo).
Proof.
  unfold batch_outcome.
  destruct (persist_run rt w sent todo) as [l' oe'] eqn:Hrun.
  intros H. inversion H; subst l'. clear H.
  destruct (persist_run_spec _ _ _ _ Hrun) as [Hall Hlen]. split; [exact Hall |].
  intros Hn. apply Hlen.
  destruct (batch_exit w TABLE_NAME (sent ++ l) _); [subst; discriminate |].
  congruence.
Qed.

Lemma build_record_fields subreddit timestamp post compound :
  let r := build_record subreddit timestamp post compound in
  r !! "SubredditName" = Some (PyStr subreddit) /\
  r !! "Timestamp" = Some (PyStr timestamp) /\
  r !! "PostID" = Some (PyStr (post_id post)) /\
  r !! "Title" = Some (PyStr (post_title post)) /\
  r !! "SentimentScore" = Some (PyFloat compound) /\
  r !! "SentimentLabel" = Some (PyStr (sentiment_label compound)).
Proof. unfold build_record. repeat split; by simplify_map_eq. Qed.

Lemma built_has_field subreddit k posts (key : string) :
  key ∈ ["SubredditName"; "Timestamp"; "PostID"; "Title"; "SentimentScore";
         "SentimentLabel"] ->
  Forall (fun it : item => is_Some (it !! key)) (built rt w subreddit k posts).
Proof.
  intros Hkey. revert k. induction posts as [| p rest IH]; intros k; cbn [built].
  - constructor.
  - constructor; [| apply IH].
    pose proof (build_record_fields subreddit (Datetime.isoformat (now w k)) p
                  (polarity_compound rt (post_title p))) as (H1 & H2 & H3 & H4 & H5 & H6).
    repeat (apply elem_of_cons in Hkey as [-> | Hkey]; [eauto |]).
    by apply elem_of_nil in Hkey.
Qed.

(** The list after the [with] block, record by record: the length is
    unchanged, and the record at an index is the one that was there or
    its conversion. *)
Lemma results_after_batch (sent todo l : list item) (oe : option exn) :
  batch_outcome rt w sent todo = (l, oe) ->
  length (l ++ drop (length l) todo) = length todo /\
  forall i it, todo !! i = Some it ->
    exists it', (l ++ drop (length l) todo) !! i = Some it' /\
                (it' = it \/ convert rt it = Ok it').
Proof.
  intros H. apply batch_outcome_spec in H as [Hall _].
  pose proof (Forall2_length _ _ _ Hall) as Hlen. rewrite length_take in Hlen.
  split.
  - rewrite length_app, length_drop. lia.
  - intros i it Hi. destruct (decide (i < length l)%nat) as [Hlt | Hge].
    + destruct (lookup_lt_is_Some_2 l i Hlt) as [it' Hit'].
      exists it'. rewrite lookup_app_l by exact Hlt. split; [exact Hit' | right].
      eapply (Forall2_lookup_lr _ _ _ i it it' Hall); [| exact Hit'].
      rewrite lookup_take_lt by exact Hlt. exact Hi.
    + exists it. split; [| left; reflexivity].
      rewrite lookup_app_r by lia. rewrite lookup_drop.
      replace (length l + (i - length l))%nat with i by lia. exact Hi.
Qed.

Lemma results_after_batch_field (sent todo l : list item) (oe : option exn) (key : string) :
  batch_outcome rt w sent todo = (l, oe) ->
  Forall (fun it : item => is_Some (it !! key)) todo ->
  Forall (fun it : item => is_Some (it !! key)) (l ++ drop (length l) todo).
Proof.
  intros H Hall. destruct (results_after_batch _ _ _ _ H) as [Hlen Hrec].
  apply Forall_lookup. intros i it' Hi.
  destruct (lookup_lt_is_Some_2 todo i) as [it Hit].
  { rewrite <- Hlen. eapply lookup_lt_Some. exact Hi. }
  destruct (Hrec i it Hit) as (it2 & Hit2 & Hcase).
  rewrite Hi in Hit2. injection Hit2 as <-.
  pose proof (proj1 (Forall_lookup _ _) Hall i it Hit) as Hsome.
  destruct Hcase as [-> | Hc]; [exact Hsome |].
  apply convert_inv in Hc as (v & d & _ & _ & ->).
  destruct (decide (key = "SentimentScore")) as [-> | Hne].
  - rewrite lookup_insert_eq. eauto.
  - rewrite lookup_insert_ne by congruence. exact Hsome.
Qed.

End Records.

(* ===================================================================== *)
(** * Whole invocations *)
(* ===================================================================== *)

Section Invocation.

Context (rt : Runtime) (w : World).
Context {E C : Type} (event : E) (context : C).

Lemma invoke_stages :
  invoke rt w event context =
  bind (get_secret rt w)
    (fun creds => bind (fetch_and_score rt w creds)
       (fun _ => bind (persist rt w) (fun _ => format_response rt))) initial_state.
Proof. reflexivity. Qed.

(** An invocation whose secret retrieval raises stops there. *)
Lemma invoke_secret_failure (e : exn) :
  get_secret_value w REGION_NAME SECRET_NAME = Raise e ->
  invoke rt w event context =
  ({| trace := EvGetSecretValue REGION_NAME SECRET_NAME
               :: (if is_ClientError e then [EvPrint secret_error_line] else []);
      ticks := 0; processed_results := [] |},
   Raise e).
Proof.
  intros H. rewrite invoke_stages. unfold bind at 1.
  rewrite get_secret_run, H. reflexivity.
Qed.

Section Reached.

Variables (secret_string : string) (creds client_id client_secret : json).
Variables (posts : list Post) (failure : option exn).

Hypothesis Hsecret :
  get_secret_value w REGION_NAME SECRET_NAME
  = Ok {| SecretString := Some secret_string |}.
Hypothesis Hloads : json_loads rt secret_string = Ok creds.
Hypothesis Hid : Json.getitem creds "client_id" = Ok client_id.
Hypothesis Hsec : Json.getitem creds "client_secret" = Ok client_secret.
Hypothesis Hhot :
  hot w client_id client_secret USER_AGENT SUBREDDIT_NAME LIMIT_POSTS
  = (posts, failure).

Lemma puts_of_scored_state :
  puts_of (trace (scored_state rt w client_id client_secret posts)) = [].
Proof.
  cbn [scored_state trace].
  change (puts_of (loop_events 0 posts) = []). apply puts_of_loop_events.
Qed.

Lemma scored_run :
  bind (get_secret rt w) (fetch_and_score rt w) initial_state =
  (scored_state rt w client_id client_secret posts,
   match failure with Some e => Raise e | None => Ok tt end).
Proof.
  unfold bind. rewrite get_secret_run, Hsecret. cbn [SecretString].
  rewrite Hloads, fetch_and_score_run, Hid, Hsec, Hhot. reflexivity.
Qed.

Lemma invoke_fetch_failure (e : exn) :
  failure = Some e ->
  invoke rt w event context =
  (scored_state rt w client_id client_secret posts, Raise e).
Proof.
  intros Hf. rewrite invoke_stages.
  pose proof scored_run as H. rewrite Hf in H. unfold bind in H |- *.
  destruct (get_secret rt w initial_state) as [s1 [c | e1]].
  - destruct (fetch_and_score rt w c s1) as [s2 [[] | e2]]; inversion H; reflexivity.
  - inversion H; reflexivity.
Qed.

Lemma invoke_reached :
  failure = None ->
  invoke rt w event context =
  bind (persist rt w) (fun _ => format_response rt)
    (scored_state rt w client_id client_secret posts).
Proof.
  intros Hf. rewrite invoke_stages.
  pose proof scored_run as H. rewrite Hf in H. unfold bind in H |- *.
  destruct (get_secret rt w initial_state) as [s1 [c | e1]].
  - destruct (fetch_and_score rt w c s1) as [s2 [[] | e2]]; inversion H; reflexivity.
  - inversion H.
Qed.

(** The outcome of an invocation that fetched and scored [posts]. *)
Lemma invoke_run :
  failure = None ->
  invoke rt w event context =
  (let '(l, oe) := batch_outcome rt w [] (built rt w SUBREDDIT_NAME 0 posts) in
   ({| trace := trace (scored_state rt w client_id client_secret posts)
                ++ (EvPutItem TABLE_NAME <$> l) ++ EvBatchExit TABLE_NAME
                :: match oe with
                   | None => [EvPrint ("Carga exitosa a DynamoDB: "
                                       +:+ pretty (length posts) +:+ " elementos.")]
                   | Some e =>
                       if is_ClientError e then [EvPrint (persist_error_line e)] else []
                   end;
       ticks := length posts;
       processed_results := l ++ drop (length l) (built rt w SUBREDDIT_NAME 0 posts) |},
    match oe with
    | None => Ok {| statusCode := 200; body := response_body rt (length posts) |}
    | Some e => Raise e
    end)).
Proof.
  intros Hf. rewrite (invoke_reached Hf). unfold bind.
  rewrite persist_run_stage, puts_of_scored_state.
  cbn [scored_state processed_results ticks].
  destruct (batch_outcome rt w [] (built rt w SUBREDDIT_NAME 0 posts))
    as [l oe] eqn:Hout.
  pose proof (results_after_batch rt w _ _ _ _ Hout) as [Hlen _].
  rewrite length_built in Hlen.
  destruct oe as [e |]; [reflexivity |].
  cbn zeta. rewrite format_response_ok.
  - cbn [processed_results]. rewrite Hlen. reflexivity.
  - cbn [processed_results].
    apply (results_after_batch_field rt w _ _ _ _ "Title" Hout).
    apply built_has_field. set_solver.
Qed.

(** The records at the end of the invocation, whatever its result:
    one per post, equal to the record built for the post on every
    field but SentimentScore. *)
Lemma invoke_results :
  let results := processed_results (invoke rt w event context).1 in
  length results = length posts /\
  forall i post, posts !! i = Some post ->
    exists r : item, results !! i = Some r /\
      forall key : string, key <> "SentimentScore" ->
        r !! key =
        build_record SUBREDDIT_NAME (Datetime.isoformat (now w i)) post
          (polarity_compound rt (post_title post)) !! key.
Proof.
  cbv zeta.
  assert (Hcases : (exists e, failure = Some e) \/ failure = None)
    by (clear; destruct failure; eauto).
  destruct Hcases as [[e Hf] | Hf].
  - rewrite (invoke_fetch_failure e Hf). cbn [fst scored_state processed_results].
    split; [apply length_built |].
    intros i post Hi. eexists. split; [exact (built_lookup rt w _ 0 posts i post Hi) |].
    reflexivity.
  - rewrite (invoke_run Hf).
    destruct (batch_outcome rt w [] (built rt w SUBREDDIT_NAME 0 posts))
      as [l oe] eqn:Hout.
    cbn [fst processed_results].
    destruct (results_after_batch rt w _ _ _ _ Hout) as [Hlen Hrec].
    rewrite length_built in Hlen. split; [exact Hlen |].
    intros i post Hi.
    destruct (Hrec i _ (built_lookup rt w _ 0 posts i post Hi)) as (r & Hr & Hcase).
    exists r. split; [exact Hr |]. intros key Hkey.
    destruct Hcase as [-> | Hc]; [reflexivity |].
    exact (convert_other_fields rt _ _ key Hc Hkey).
Qed.

End Reached.

(** An invocation that cannot read its credentials stops after the
    call to the secret store. *)
Lemma invoke_credentials_failure (response : SecretResponse) (e : exn) :
  get_secret_value w REGION_NAME SECRET_NAME = Ok response ->
  credentials_of rt response = Raise e ->
  invoke rt w event context =
  ({| trace := [EvGetSecretValue REGION_NAME SECRET_NAME];
      ticks := 0; processed_results := [] |},
   Raise e).
Proof.
  intros Hsecret Hcreds. rewrite invoke_stages. unfold bind at 1.
  rewrite get_secret_run, Hsecret. unfold credentials_of in Hcreds.
  destruct (SecretString response) as [sstr |]; [| injection Hcreds as <-; reflexivity].
  destruct (json_loads rt sstr) as [creds | e1]; [| injection Hcreds as <-; reflexivity].
  unfold bind at 1. rewrite fetch_and_score_run.
  destruct (Json.getitem creds "client_id") as [cid | e1]; [| injection Hcreds as <-; reflexivity].
  destruct (Json.getitem creds "client_secret") as [csec | e1]; [| injection Hcreds as <-; reflexivity].
  discriminate.
Qed.

Lemma credentials_of_ok (response : SecretResponse) (client_id client_secret : json) :
  credentials_of rt response = Ok (client_id, client_secret) ->
  exists secret_string creds,
    response = {| SecretString := Some secret_string |} /\
    json_loads rt secret_string = Ok creds /\
    Json.getitem creds "client_id" = Ok client_id /\
    Json.getitem creds "client_secret" = Ok client_secret.
Proof.
  unfold credentials_of. destruct response as [[sstr |]]; cbn; [| discriminate].
  destruct (json_loads rt sstr) as [creds | e1] eqn:Hloads; [| discriminate].
  destruct (Json.getitem creds "client_id") as [cid | e1] eqn:Hid; [| discriminate].
  destruct (Json.getitem creds "client_secret") as [csec | e1] eqn:Hsec; [| discriminate].
  intros H. injection H as <- <-. exists sstr, creds. auto.
Qed.

(** The items put during an invocation are conversions of records built
    for fetched posts. *)
Lemma invoke_puts (it : item) :
  it ∈ puts_of (trace (invoke rt w event context).1) ->
  exists (post : Post) (timestamp : string),
    convert rt (build_record SUBREDDIT_NAME timestamp post
                  (polarity_compound rt (post_title post))) = Ok it.
Proof.
  destruct (get_secret_value w REGION_NAME SECRET_NAME) as [response | e] eqn:Hsecret.
  2: { rewrite (invoke_secret_failure e Hsecret). cbn [fst trace].
       destruct (is_ClientError e); no_item. }
  destruct (credentials_of rt response) as [[cid csec] | e] eqn:Hcreds.
  2: { rewrite (invoke_credentials_failure response e Hsecret Hcreds). no_item. }
  apply credentials_of_ok in Hcreds as (sstr & creds & -> & Hloads & Hid & Hsec).
  destruct (hot w cid csec USER_AGENT SUBREDDIT_NAME LIMIT_POSTS) as [posts failure] eqn:Hhot.
  destruct failure as [e |].
  { rewrite (invoke_fetch_failure _ _ _ _ _ _ Hsecret Hloads Hid Hsec Hhot e eq_refl).
    cbn [fst]. rewrite puts_of_scored_state. no_item. }
  rewrite (invoke_run _ _ _ _ _ _ Hsecret Hloads Hid Hsec Hhot eq_refl).
  destruct (batch_outcome rt w [] (built rt w SUBREDDIT_NAME 0 posts)) as [l oe] eqn:Hout.
  cbn [fst trace]. rewrite !puts_of_app, puts_of_scored_state, puts_of_put_events.
  match goal with
  | |- context [puts_of (EvBatchExit ?t :: ?evs)] =>
      replace (puts_of (EvBatchExit t :: evs)) with (@nil item)
        by (destruct oe as [e |]; [destruct (is_ClientError e) |]; reflexivity)
  end.
  rewrite app_nil_r. cbn [app]. intros Hl.
  destruct (batch_outcome_spec rt w _ _ _ _ Hout) as [Hall _].
  apply list_elem_of_lookup in Hl as [i Hi].
  destruct (Forall2_lookup_r _ _ _ i it Hall Hi) as (r0 & Hr0 & Hc).
  apply lookup_take_Some in Hr0 as [Hr0 _].
  apply built_lookup_inv in Hr0 as (post & _ & ->).
  eauto.
Qed.

(** A response is returned only when every stage before it went through. *)
Lemma invoke_ok_inv (s : state) (r : response) :
  invoke rt w event context = (s, Ok r) ->
  exists secret_string creds client_id client_secret posts,
    get_secret_value w REGION_NAME SECRET_NAME
    = Ok {| SecretString := Some secret_string |} /\
    json_loads rt secret_string = Ok creds /\
    Json.getitem creds "client_id" = Ok client_id /\
    Json.getitem creds "client_secret" = Ok client_secret /\
    hot w client_id client_secret USER_AGENT SUBREDDIT_NAME LIMIT_POSTS = (posts, None).
Proof.
  rewrite invoke_stages. intros H.
  apply bind_ok_inv in H as (creds & s1 & Hget & H).
  apply bind_ok_inv in H as ([] & s2 & Hfetch & _).
  rewrite get_secret_run in Hget.
  destruct (get_secret_value w REGION_NAME SECRET_NAME) as [[[sstr |]] | e] eqn:Hs;
    [| discriminate | discriminate].
  injection Hget as Hs1 Hloads.
  rewrite fetch_and_score_run in Hfetch.
  destruct (Json.getitem creds "client_id") as [cid | e] eqn:Hid; [| discriminate].
  destruct (Json.getitem creds "client_secret") as [csec | e] eqn:Hsec; [| discriminate].
  destruct (hot w cid csec USER_AGENT SUBREDDIT_NAME LIMIT_POSTS) as [posts [e |]] eqn:Hhot;
    [discriminate |].
  exists sstr, creds, cid, csec, posts. auto.
Qed.

End Invocation.

(* ===================================================================== *)
(** * ISO timestamps sort like the instants they denote *)
(* ===================================================================== *)

Module DatetimeFacts.
Import Datetime.

Lemma length_append (a b : string) :
  String.length (a +:+ b) = (String.length a + String.length b)%nat.
Proof.
  induction a as [| c a IH]; [reflexivity |].
  rewrite append_String. cbn. f_equal. exact IH.
Qed.

Lemma length_zero_pad (w : nat) (n : N) : String.length (zero_pad w n) = w.
Proof.
  revert n. induction w as [| w IH]; intros n; cbn [zero_pad]; [reflexivity |].
  rewrite length_append, IH. cbn. lia.
Qed.

(** Comparing two strings that start with prefixes of the same length. *)
Lemma compare_append (a b x y : string) :
  String.length a = String.length b ->
  String.compare (a +:+ x) (b +:+ y) =
  match String.compare a b with
  | Eq => String.compare x y
  | c => c
  end.
Proof.
  revert b. induction a as [| ca a IH]; intros [| cb b] Hlen; try discriminate.
  - reflexivity.
  - cbn in Hlen. rewrite !append_String. cbn [String.compare].
    destruct (Ascii.compare ca cb); [| reflexivity | reflexivity].
    apply IH. lia.
Qed.

Lemma compare_refl (a : string) : String.compare a a = Eq.
Proof.
  induction a as [| c a IH]; [reflexivity |]. cbn.
  unfold Ascii.compare. rewrite N.compare_refl. exact IH.
Qed.

Lemma compare_digit (a b : N) :
  (a < 10)%N -> (b < 10)%N ->
  Ascii.compare (ascii_of_N (48 + a)) (ascii_of_N (48 + b)) = (a ?= b)%N.
Proof.
  intros Ha Hb. unfold Ascii.compare.
  rewrite !N_ascii_embedding by lia.
  destruct (N.compare_spec a b) as [H | H | H];
    first [ apply N.compare_eq_iff | apply N.compare_lt_iff | apply N.compare_gt_iff ];
    lia.
Qed.

(** On numbers that fit the width, zero padding turns the order of
    numbers into the order of strings. *)
Lemma compare_zero_pad (w : nat) (n m : N) :
  (n < 10 ^ N.of_nat w)%N -> (m < 10 ^ N.of_nat w)%N ->
  String.compare (zero_pad w n) (zero_pad w m) = (n ?= m)%N.
Proof.
  revert n m. induction w as [| w IH]; intros n m Hn Hm.
  - cbn in Hn, Hm. assert (n = 0%N) as -> by lia. assert (m = 0%N) as -> by lia.
    reflexivity.
  - cbn [zero_pad].
    rewrite Nat2N.inj_succ, N.pow_succ_r' in Hn, Hm.
    pose proof (N.div_mod n 10 ltac:(lia)) as Dn.
    pose proof (N.div_mod m 10 ltac:(lia)) as Dm.
    pose proof (N.mod_lt n 10 ltac:(lia)) as Rn.
    pose proof (N.mod_lt m 10 ltac:(lia)) as Rm.
    assert (Qn : (n / 10 < 10 ^ N.of_nat w)%N)
      by (apply N.Div0.div_lt_upper_bound; lia).
    assert (Qm : (m / 10 < 10 ^ N.of_nat w)%N)
      by (apply N.Div0.div_lt_upper_bound; lia).
    rewrite compare_append by (rewrite !length_zero_pad; reflexivity).
    rewrite (IH _ _ Qn Qm). cbn [String.compare].
    rewrite compare_digit by assumption.
    set (qn := (n / 10)%N) in *. set (qm := (m / 10)%N) in *.
    set (rn := (n mod 10)%N) in *. set (rm := (m mod 10)%N) in *.
    destruct (N.compare_spec qn qm) as [Hq | Hq | Hq];
      destruct (N.compare_spec rn rm) as [Hr | Hr | Hr];
      symmetry;
      first [ apply N.compare_eq_iff | apply N.compare_lt_iff | apply N.compare_gt_iff ];
      lia.
Qed.

Lemma compare_field (w : nat) (n m : N) (sep x y : string) :
  (n < 10 ^ N.of_nat w)%N -> (m < 10 ^ N.of_nat w)%N ->
  String.compare (zero_pad w n +:+ sep +:+ x) (zero_pad w m +:+ sep +:+ y) =
  match (n ?= m)%N with
  | Eq => String.compare x y
  | c => c
  end.
Proof.
  intros Hn Hm.
  rewrite compare_append by (rewrite !length_zero_pad; reflexivity).
  rewrite compare_zero_pad by assumption.
  destruct (n ?= m)%N; [| reflexivity | reflexivity].
  rewrite compare_append by reflexivity. rewrite compare_refl. reflexivity.
Qed.

Lemma compare_fraction (n m : N) :
  (n < m)%N -> (m < 1000000)%N -> String.compare (fraction n) (fraction m) = Lt.
Proof.
  intros Hlt Hm. unfold fraction.
  destruct (N.eqb_spec m 0) as [-> | Hm0]; [lia |].
  destruct (N.eqb_spec n 0) as [-> | Hn0]; [reflexivity |].
  rewrite compare_append by reflexivity. cbn [String.compare].
  change (Ascii.compare "." ".") with Eq. cbv iota.
  rewrite compare_zero_pad by (cbn; lia).
  apply N.compare_lt_iff. exact Hlt.
Qed.

(** One field of the order of instants: either it decides, or it is
    the same on both sides and the comparison moves on. *)
Ltac earlier_or_same H :=
  destruct H as [H | [-> H]];
  [apply N.compare_lt_iff in H; rewrite H; reflexivity | rewrite N.compare_refl].

(** [isoformat] is strictly increasing: a later instant has the greater
    string. *)
Lemma isoformat_lt (a b : datetime) :
  valid a -> valid b -> lt a b -> String.compare (isoformat a) (isoformat b) = Lt.
Proof.
  unfold valid, lt, key, lex_lt, isoformat.
  intros (Hy & Hmo & Hd & Hh & Hmi & Hs & Hus) (Hy' & Hmo' & Hd' & Hh' & Hmi' & Hs' & Hus').
  intros Hlt.
  rewrite compare_field by (cbn; lia).
  do 4 (earlier_or_same Hlt; rewrite compare_field by (cbn; lia)).
  earlier_or_same Hlt.
  rewrite compare_append by (rewrite !length_zero_pad; reflexivity).
  rewrite compare_zero_pad by (cbn; lia).
  earlier_or_same Hlt.
  destruct Hlt as [Hlt | [_ []]].
  apply compare_fraction; assumption.
Qed.

(** The three-way comparison decides the order of instants. *)
Lemma lex_compare_lt (a b : list N) :
  length a = length b -> (lex_compare a b = Lt <-> lex_lt a b).
Proof.
  revert b. induction a as [| x a IH]; intros [| y b] Hlen; try discriminate.
  - cbn. split; [discriminate | tauto].
  - cbn in Hlen. cbn [lex_compare lex_lt].
    destruct (N.compare_spec x y) as [-> | Hxy | Hxy].
    + rewrite IH by lia. split; [tauto | intros [H | [_ H]]; [lia | exact H]].
    + split; [intros _; left; exact Hxy | reflexivity].
    + split; [discriminate | intros [H | [H _]]; lia].
Qed.

Lemma lex_compare_eq (a b : list N) : lex_compare a b = Eq -> a = b.
Proof.
  revert b. induction a as [| x a IH]; intros [| y b]; cbn; try discriminate.
  - reflexivity.
  - destruct (N.compare_spec x y) as [-> | _ | _]; try discriminate.
    intros H. f_equal. exact (IH _ H).
Qed.

Lemma lex_compare_antisym (a b : list N) :
  lex_compare b a = CompOpp (lex_compare a b).
Proof.
  revert b. induction a as [| x a IH]; intros [| y b]; cbn; try reflexivity.
  rewrite (N.compare_antisym x y).
  destruct (x ?= y)%N; cbn; [apply IH | reflexivity | reflexivity].
Qed.

Lemma compare_lt_iff (a b : datetime) : compare a b = Lt <-> lt a b.
Proof. apply lex_compare_lt. reflexivity. Qed.

Lemma compare_gt_iff (a b : datetime) : compare a b = Gt <-> lt b a.
Proof.
  rewrite <- compare_lt_iff. unfold compare.
  rewrite (lex_compare_antisym (key a) (key b)).
  destruct (lex_compare (key a) (key b)); cbn; split; congruence.
Qed.

Lemma compare_eq_iff (a b : datetime) : compare a b = Eq <-> a = b.
Proof.
  split.
  - intros H. apply lex_compare_eq in H. destruct a, b. unfold key in H. cbn in H.
    injection H as -> -> -> -> -> -> ->. reflexivity.
  - intros ->. unfold compare. induction (key b) as [| x l IH]; [reflexivity |].
    cbn. rewrite N.compare_refl. exact IH.
Qed.

(** The strings of two instants compare as the instants do. *)
Lemma isoformat_compare (a b : datetime) :
  valid a -> valid b ->
  String.compare (isoformat a) (isoformat b) = compare a b.
Proof.
  intros Ha Hb. destruct (compare a b) eqn:Hc.
  - apply compare_eq_iff in Hc as ->. apply compare_refl.
  - apply compare_lt_iff in Hc. exact (isoformat_lt a b Ha Hb Hc).
  - apply compare_gt_iff in Hc.
    rewrite String.compare_antisym, (isoformat_lt b a Hb Ha Hc). reflexivity.
Qed.

End DatetimeFacts.

(* ===================================================================== *)
(** * The label rule *)
(* ===================================================================== *)

(** The rule on floats: with the comparisons of the source. *)
Lemma sentiment_label_cases (c : spec_float) :
  (sentiment_label c = "Positive" <-> Float.ge c Float.lit_0_05 = true) /\
  (sentiment_label c = "Negative" <->
     Float.ge c Float.lit_0_05 = false /\ Float.le c Float.lit_neg_0_05 = true) /\
  (sentiment_label c = "Neutral" <->
     Float.ge c Float.lit_0_05 = false /\ Float.le c Float.lit_neg_0_05 = false).
Proof.
  unfold sentiment_label.
  destruct (Float.ge c Float.lit_0_05); [| destruct (Float.le c Float.lit_neg_0_05)];
    repeat split; intros; try discriminate; try tauto; destruct_and?; try discriminate.
Qed.

(** C1. For every binary64 compound score [s], the record built for a
    post holds [s] as its SentimentScore, and its SentimentLabel is
    'Positive' exactly when [s >= 0.05], 'Negative' exactly when
    [s <= -0.05] and 'Neutral' exactly when neither holds, the comparisons
    being on the exact values and the bounds inclusive. *)
Theorem C1_label_thresholds (subreddit timestamp : string) (post : Post) (s : spec_float) :
  Float.is_binary64 s = true ->
  let r := build_record subreddit timestamp post s in
  r !! "SentimentScore" = Some (PyFloat s) /\
  (r !! "SentimentLabel" = Some (PyStr "Positive") <-> Float.value_ge s 5 100) /\
  (r !! "SentimentLabel" = Some (PyStr "Negative") <-> Float.value_le s (-5) 100) /\
  (r !! "SentimentLabel" = Some (PyStr "Neutral") <->
     ~ Float.value_ge s 5 100 /\ ~ Float.value_le s (-5) 100).
Proof.
  intros Hs r.
  destruct (build_record_fields subreddit timestamp post s) as (_ & _ & _ & _ & Hscore & Hlabel).
  fold r in Hscore, Hlabel. rewrite Hlabel.
  pose proof (FloatFacts.ge_lit_0_05_exact s Hs) as Hge.
  pose proof (FloatFacts.le_lit_neg_0_05_exact s Hs) as Hle.
  pose proof (FloatFacts.value_ge_le_exclusive s) as Hex.
  destruct (sentiment_label_cases s) as (Hp & Hn & Hz).
  split; [exact Hscore |].
  assert (Hinj : forall a b : string, Some (PyStr a) = Some (PyStr b) <-> a = b)
    by (intros a b; split; [intros H; injection H; auto | intros ->; reflexivity]).
  rewrite !Hinj, Hp, Hn, Hz, <- Hge, <- Hle.
  destruct (Float.ge s Float.lit_0_05) eqn:G; destruct (Float.le s Float.lit_neg_0_05) eqn:L.
  - exfalso. apply Hex; [apply Hge | apply Hle]; reflexivity.
  - repeat split; intros; destruct_and?; try discriminate; try tauto; try congruence.
  - repeat split; intros; destruct_and?; try discriminate; try tauto; try congruence.
  - repeat split; intros; destruct_and?; try discriminate; try tauto; try congruence.
Qed.

(** The rule at the float [0.05] itself. *)
Lemma C1_label_thresholds_witness :
  Float.is_binary64 Float.lit_0_05 = true /\
  build_record "valencia" "2024-05-17T09:03:00" (Sample.post 0) Float.lit_0_05
    !! "SentimentLabel" = Some (PyStr "Positive").
Proof.
  split; [reflexivity |].
  apply (C1_label_thresholds "valencia" "2024-05-17T09:03:00" (Sample.post 0)
           Float.lit_0_05 eq_refl).
  vm_compute. discriminate.
Defined.

(** The rule at the boundaries: the floats [0.05] and [-0.05] are inside
    their classes, the floats next to them towards zero are not. *)
Example sentiment_label_boundaries :
  sentiment_label Float.lit_0_05 = "Positive" /\
  sentiment_label Float.lit_neg_0_05 = "Negative" /\
  sentiment_label (S754_zero false) = "Neutral" /\
  sentiment_label (S754_finite false 7205759403792793 (-57)) = "Neutral" /\
  sentiment_label (S754_finite true 7205759403792793 (-57)) = "Neutral" /\
  sentiment_label S754_nan = "Neutral".
Proof. repeat split; reflexivity. Qed.

(** The float [0.05] is the binary64 value nearest to 5/100: it lies
    above it, by less than the float below lies under it. *)
Example lit_0_05_nearest :
  Float.value_ge Float.lit_0_05 5 100 /\
  ~ Float.value_ge (S754_finite false 7205759403792793 (-57)) 5 100 /\
  100 * 7205759403792794 - 5 * 2 ^ 57 < 5 * 2 ^ 57 - 100 * 7205759403792793.
Proof. repeat split; vm_compute; congruence. Qed.

(* ===================================================================== *)
(** * Failures before the fetch *)
(* ===================================================================== *)

(** C4 as stated fails: when the secret store cannot be reached the
    exception is not a [ClientError]; it leaves the handler, but nothing
    is printed. *)
Lemma C4_counterexample :
  let e := Sample.unreachable_error "https://secretsmanager.eu-west-3.amazonaws.com/" in
  let w := Sample.world_secret_fails e in
  get_secret_value w REGION_NAME SECRET_NAME = Raise e /\
  (invoke Sample.runtime w tt tt).2 = Raise e /\
  ~ EvPrint secret_error_line ∈ trace (invoke Sample.runtime w tt tt).1.
Proof.
  cbv zeta. split; [reflexivity |]. split; [reflexivity |].
  rewrite (invoke_secret_failure Sample.runtime
             (Sample.world_secret_fails
                (Sample.unreachable_error "https://secretsmanager.eu-west-3.amazonaws.com/"))
             tt tt
             (Sample.unreachable_error "https://secretsmanager.eu-west-3.amazonaws.com/")
             eq_refl).
  cbn [fst trace is_ClientError Sample.unreachable_error].
  intros H. apply list_elem_of_singleton in H. discriminate.
Qed.

(** C4 (amended). If secret retrieval raises [e], the handler raises [e]
    after the call to the secret store and nothing else: no post is
    fetched, no item is written, no clock is read, no record exists. The
    error line is printed before that exactly when [e] is a [ClientError]. *)
Theorem C4_secret_failure (rt : Runtime) (w : World) {E C : Type}
    (event : E) (context : C) (e : exn) :
  get_secret_value w REGION_NAME SECRET_NAME = Raise e ->
  invoke rt w event context =
  ({| trace := EvGetSecretValue REGION_NAME SECRET_NAME
               :: (if is_ClientError e then [EvPrint secret_error_line] else []);
      ticks := 0; processed_results := [] |},
   Raise e).
Proof.
  intros Hfails. unfold invoke, lambda_handler, bind at 1.
  rewrite get_secret_run, Hfails.
  destruct (is_ClientError e); reflexivity.
Qed.

Lemma C4_secret_failure_witness :
  invoke Sample.runtime (Sample.world_secret_fails Sample.not_found_error) tt tt =
  ({| trace := [EvGetSecretValue REGION_NAME SECRET_NAME; EvPrint secret_error_line];
      ticks := 0; processed_results := [] |},
   Raise Sample.not_found_error).
Proof.
  apply (C4_secret_failure Sample.runtime
           (Sample.world_secret_fails Sample.not_found_error) tt tt Sample.not_found_error).
  reflexivity.
Defined.

(** C10. If the secret is retrieved and parses to a JSON object without
    the 'client_id' or the 'client_secret' key, the handler raises the
    [KeyError] of the first missing key; the only call made is the one to
    the secret store: nothing is printed, fetched or written. *)
Theorem C10_missing_credential_key (rt : Runtime) (w : World) {E C : Type}
    (event : E) (context : C) (secret_string : string) (kvs : list (string * json)) :
  get_secret_value w REGION_NAME SECRET_NAME = Ok {| SecretString := Some secret_string |} ->
  json_loads rt secret_string = Ok (JObj kvs) ->
  Json.lookup "client_id" kvs = None \/ Json.lookup "client_secret" kvs = None ->
  exists key,
    (key = "client_id" \/ key = "client_secret") /\
    Json.lookup key kvs = None /\
    invoke rt w event context =
    ({| trace := [EvGetSecretValue REGION_NAME SECRET_NAME];
        ticks := 0; processed_results := [] |},
     Raise (KeyError key)).
Proof.
  intros Hsecret Hloads Hmissing.
  assert (Hrun : forall key,
    Json.getitem (JObj kvs) "client_id" = Raise (KeyError key) \/
    (exists v, Json.getitem (JObj kvs) "client_id" = Ok v /\
               Json.getitem (JObj kvs) "client_secret" = Raise (KeyError key)) ->
    invoke rt w event context =
    ({| trace := [EvGetSecretValue REGION_NAME SECRET_NAME];
        ticks := 0; processed_results := [] |}, Raise (KeyError key))).
  { intros key Hkey. rewrite invoke_stages. unfold bind at 1.
    rewrite get_secret_run, Hsecret. cbn [SecretString]. rewrite Hloads.
    unfold bind at 1. rewrite fetch_and_score_run.
    destruct Hkey as [-> | (v & -> & ->)]; reflexivity. }
  destruct (Json.lookup "client_id" kvs) as [v |] eqn:Hid.
  - destruct Hmissing as [? | Hsec]; [discriminate |].
    exists "client_secret". split; [auto |]. split; [exact Hsec |].
    apply Hrun. right. exists v. cbn [Json.getitem]. rewrite Hid, Hsec. auto.
  - exists "client_id". split; [auto |]. split; [exact Hid |].
    apply Hrun. left. cbn [Json.getitem]. rewrite Hid. reflexivity.
Qed.

Lemma C10_missing_credential_key_witness :
  exists key,
    (key = "client_id" \/ key = "client_secret") /\
    Json.lookup key [("client_id", JStr "my-client-id")] = None /\
    invoke Sample.runtime Sample.world_partial_secret tt tt =
    ({| trace := [EvGetSecretValue REGION_NAME SECRET_NAME];
        ticks := 0; processed_results := [] |},
     Raise (KeyError key)).
Proof.
  apply (C10_missing_credential_key Sample.runtime Sample.world_partial_secret tt tt
           Sample.partial_secret_text [("client_id", JStr "my-client-id")]).
  - reflexivity.
  - reflexivity.
  - right. reflexivity.
Defined.

(** A payload that is not an object fails the same way, with the
    [TypeError] of the subscript. *)
Lemma non_object_credentials (rt : Runtime) (w : World) {E C : Type}
    (event : E) (context : C) (secret_string : string) (creds : json) :
  get_secret_value w REGION_NAME SECRET_NAME = Ok {| SecretString := Some secret_string |} ->
  json_loads rt secret_string = Ok creds ->
  (forall kvs, creds <> JObj kvs) ->
  exists msg,
    invoke rt w event context =
    ({| trace := [EvGetSecretValue REGION_NAME SECRET_NAME];
        ticks := 0; processed_results := [] |},
     Raise (TypeError msg)).
Proof.
  intros Hsecret Hloads Hobj.
  assert (Hfail : exists msg, Json.getitem creds "client_id" = Raise (TypeError msg)).
  { destruct creds; cbn; eauto. exfalso. exact (Hobj _ eq_refl). }
  destruct Hfail as [msg Hmsg]. exists msg.
  apply (invoke_credentials_failure rt w event context _ _ Hsecret).
  unfold credentials_of. cbn [SecretString]. rewrite Hloads, Hmsg. reflexivity.
Qed.

(** Once the handles of lines 24 and 37-38 are built, the call to the
    secret store comes first: no post is fetched and no item is put
    before it. *)
Lemma secret_call_comes_first (rt : Runtime) (w : World) {E C : Type}
    (event : E) (context : C) :
  exists rest,
    trace (invoke rt w event context).1 = EvGetSecretValue REGION_NAME SECRET_NAME :: rest.
Proof.
  destruct (get_secret_value w REGION_NAME SECRET_NAME) as [response | e] eqn:Hsecret.
  2: { rewrite (invoke_secret_failure rt w event context e Hsecret). cbn. eauto. }
  destruct (credentials_of rt response) as [[cid csec] | e] eqn:Hcreds.
  2: { rewrite (invoke_credentials_failure rt w event context response e Hsecret Hcreds).
       cbn. eauto. }
  apply credentials_of_ok in Hcreds as (sstr & creds & -> & Hloads & Hid & Hsec).
  destruct (hot w cid csec USER_AGENT SUBREDDIT_NAME LIMIT_POSTS) as [posts failure] eqn:Hhot.
  destruct failure as [e |].
  { rewrite (invoke_fetch_failure rt w event context _ _ _ _ _ _
               Hsecret Hloads Hid Hsec Hhot e eq_refl).
    cbn. eauto. }
  rewrite (invoke_run rt w event context _ _ _ _ _ _ Hsecret Hloads Hid Hsec Hhot eq_refl).
  destruct (batch_outcome rt w [] (built rt w SUBREDDIT_NAME 0 posts)) as [l oe].
  cbn. eauto.
Qed.

(* ===================================================================== *)
(** * The arguments of the handler *)
(* ===================================================================== *)

(** C9. The event and the context are not used: two invocations in the
    same environment end in the same state, with the same trace of calls
    (the same writes among them), and with the same result. *)
Theorem C9_event_context_unused (rt : Runtime) (w : World) {E1 C1 E2 C2 : Type}
    (event1 : E1) (context1 : C1) (event2 : E2) (context2 : C2) :
  invoke rt w event1 context1 = invoke rt w event2 context2 /\
  puts_of (trace (invoke rt w event1 context1).1)
  = puts_of (trace (invoke rt w event2 context2).1) /\
  (invoke rt w event1 context1).2 = (invoke rt w event2 context2).2.
Proof.
  assert (Hsame : invoke rt w event1 context1 = invoke rt w event2 context2).
  { unfold invoke, lambda_handler. reflexivity. }
  split; [exact Hsame |]. rewrite Hsame. split; reflexivity.
Qed.

(* ===================================================================== *)
(** * Failures of the batch write *)
(* ===================================================================== *)

(** C3 as stated fails: a batch write that fails with an exception that
    is not a [ClientError] (here the endpoint cannot be reached when the
    batch of three items is flushed) leaves the handler without the error
    being printed. *)
Lemma C3_counterexample :
  let e := Sample.unreachable_error "https://dynamodb.eu-west-3.amazonaws.com/" in
  let w := Sample.world_write_fails 3 e in
  let s1 := (bind (get_secret Sample.runtime w) (fetch_and_score Sample.runtime w)
               initial_state).1 in
  (batch_write Sample.runtime w s1).2 = Raise e /\
  (invoke Sample.runtime w tt tt).2 = Raise e /\
  printed (trace (invoke Sample.runtime w tt tt).1) =
    ["Posts procesados y listos para carga: 1";
     "Posts procesados y listos para carga: 2";
     "Posts procesados y listos para carga: 3"].
Proof. cbv zeta. repeat split; vm_compute; reflexivity. Qed.

(** C3 (amended). If the posts were fetched and scored and the batch
    write then raises [e], the handler raises [e]: no response is
    returned. The error line is printed first exactly when [e] is a
    [ClientError]; after the batch write nothing else happens. *)
Theorem C3_persistence_failure (rt : Runtime) (w : World) {E C : Type}
    (event : E) (context : C) (s1 s2 : state) (e : exn) :
  bind (get_secret rt w) (fetch_and_score rt w) initial_state = (s1, Ok tt) ->
  batch_write rt w s1 = (s2, Raise e) ->
  invoke rt w event context =
  ({| trace := trace s2
               ++ (if is_ClientError e then [EvPrint (persist_error_line e)] else []);
      ticks := ticks s2; processed_results := processed_results s2 |},
   Raise e).
Proof.
  intros Hscored Hwrite. rewrite invoke_stages, bind_assoc.
  rewrite (bind_ok _ _ _ _ _ Hscored).
  unfold bind at 1, persist, try_except_ClientError, bind at 1.
  rewrite Hwrite. destruct (is_ClientError e).
  - reflexivity.
  - f_equal. apply state_eq; [symmetry; apply app_nil_r | reflexivity | reflexivity].
Qed.

Lemma C3_persistence_failure_witness :
  let w := Sample.world_write_fails 3 Sample.validation_error in
  let s1 := (bind (get_secret Sample.runtime w) (fetch_and_score Sample.runtime w)
               initial_state).1 in
  let s2 := (batch_write Sample.runtime w s1).1 in
  invoke Sample.runtime w tt tt =
  ({| trace := trace s2
               ++ [EvPrint (persist_error_line Sample.validation_error)];
      ticks := ticks s2; processed_results := processed_results s2 |},
   Raise Sample.validation_error).
Proof.
  intros w s1 s2.
  assert (H1 : bind (get_secret Sample.runtime w) (fetch_and_score Sample.runtime w)
                 initial_state = (s1, Ok tt)) by (vm_compute; reflexivity).
  assert (H2 : batch_write Sample.runtime w s1 = (s2, Raise Sample.validation_error))
    by (vm_compute; reflexivity).
  exact (C3_persistence_failure Sample.runtime w tt tt s1 s2 Sample.validation_error H1 H2).
Defined.

(* ===================================================================== *)
(** * Records after they are built *)
(* ===================================================================== *)

(** C7 as stated fails: the record the builder made holds a float score;
    after the persister ran, the dict at the same index of
    [processed_results] holds a [Decimal]. *)
Lemma C7_counterexample :
  let w := Sample.world 1 in
  let s1 := (bind (get_secret Sample.runtime w) (fetch_and_score Sample.runtime w)
               initial_state).1 in
  let s2 := (persist Sample.runtime w s1).1 in
  (processed_results s1 !! 0%nat ≫= lookup "SentimentScore")
    = Some (PyFloat Sample.float_0_1) /\
  (processed_results s2 !! 0%nat ≫= lookup "SentimentScore")
    = Some (PyDecimal (Decimal.Finite false 1 (-1))).
Proof. cbv zeta. split; vm_compute; reflexivity. Qed.

(** What the persister and the response formatter do to a state: the
    batch hands a prefix [l] of converted records to [put_item]; these
    take the place of the records they were made from. *)
Lemma persist_stage_outcome (rt : Runtime) (w : World) (s s' : state)
    (r : result response) :
  bind (persist rt w) (fun _ => format_response rt) s = (s', r) ->
  exists l oe,
    batch_outcome rt w (puts_of (trace s)) (processed_results s) = (l, oe) /\
    processed_results s' = l ++ drop (length l) (processed_results s) /\
    puts_of (trace s') = puts_of (trace s) ++ l /\
    ((exists resp, r = Ok resp) -> oe = None).
Proof.
  intros Hrun. unfold bind in Hrun. rewrite persist_run_stage in Hrun.
  destruct (batch_outcome rt w (puts_of (trace s)) (processed_results s)) as [l oe].
  exists l, oe. split; [reflexivity |].
  assert (Hputs : forall tail, puts_of tail = [] ->
            puts_of (trace s ++ (EvPutItem TABLE_NAME <$> l) ++ EvBatchExit TABLE_NAME :: tail)
            = puts_of (trace s) ++ l).
  { intros tail Htail. rewrite !puts_of_app, puts_of_put_events.
    change (puts_of (EvBatchExit TABLE_NAME :: tail)) with (puts_of tail).
    rewrite Htail, app_nil_r. reflexivity. }
  destruct oe as [e |].
  - inversion Hrun. cbn [trace processed_results]. split; [reflexivity |]. split.
    + apply Hputs. destruct (is_ClientError e); reflexivity.
    + intros [resp Hresp]. discriminate.
  - cbv beta iota zeta in Hrun.
    match type of Hrun with format_response rt ?st = _ =>
      pose proof (format_response_state rt st) as Hst end.
    rewrite Hrun in Hst. cbn [fst] in Hst. rewrite Hst. cbn [trace processed_results].
    split; [reflexivity |]. split; [| reflexivity].
    apply Hputs. reflexivity.
Qed.

(** C7 (amended). The stages after the builder (persister and response
    formatter) keep the number of records and, in every record, every
    field but SentimentScore as it was built. The persister replaces, in
    place, the SentimentScore of exactly the records it hands to
    [put_item], the first [handed] ones, by the decimal read from the
    string of the float, and the item it hands over is the record so
    changed; the records after them are left as built. When the handler
    returns a response, every record was handed over, so every
    SentimentScore was replaced. *)
Theorem C7_only_score_updated (rt : Runtime) (w : World) (s s' : state)
    (r : result response) :
  bind (persist rt w) (fun _ => format_response rt) s = (s', r) ->
  let before := length (puts_of (trace s)) in
  let handed := (length (puts_of (trace s')) - before)%nat in
  length (processed_results s') = length (processed_results s) /\
  (handed <= length (processed_results s))%nat /\
  ((exists resp, r = Ok resp) -> handed = length (processed_results s)) /\
  forall (i : nat) (it : item),
    processed_results s !! i = Some it ->
    exists it' : item,
      processed_results s' !! i = Some it' /\
      (forall key : string, key <> "SentimentScore" -> it' !! key = it !! key) /\
      ((i < handed)%nat ->
       puts_of (trace s') !! (before + i)%nat = Some it' /\
       exists v d, it !! "SentimentScore" = Some v /\ Decimal_of_str rt v = Ok d /\
                   it' = <["SentimentScore" := PyDecimal d]> it) /\
      ((handed <= i)%nat -> it' = it).
Proof.
  intros Hrun before handed.
  destruct (persist_stage_outcome rt w s s' r Hrun) as (l & oe & Hout & Hres & Hputs & Hok).
  assert (Hhanded : handed = length l).
  { unfold handed, before. rewrite Hputs, length_app. lia. }
  destruct (batch_outcome_spec rt w _ _ _ _ Hout) as [Hall Hfull].
  pose proof (Forall2_length _ _ _ Hall) as Hlen. rewrite length_take in Hlen.
  rewrite Hhanded, Hres. split; [| split; [| split]].
  - rewrite length_app, length_drop. lia.
  - lia.
  - intros Hresp. apply Hfull, Hok, Hresp.
  - intros i it Hi.
    destruct (decide (i < length l)%nat) as [Hlt | Hge].
    + assert (Htake : take (length l) (processed_results s) !! i = Some it)
        by (rewrite lookup_take_lt by exact Hlt; exact Hi).
      destruct (Forall2_lookup_l _ _ _ _ _ Hall Htake) as (it' & Hit' & Hconv).
      exists it'. split; [rewrite lookup_app_l by exact Hlt; exact Hit' |].
      split; [| split].
      * intros key Hkey. exact (convert_other_fields rt it it' key Hconv Hkey).
      * intros _. split.
        -- rewrite Hputs. unfold before.
           rewrite lookup_app_r by lia.
           replace (length (puts_of (trace s)) + i - length (puts_of (trace s)))%nat
             with i by lia.
           exact Hit'.
        -- exact (convert_inv rt it it' Hconv).
      * intros Hle. lia.
    + exists it. split.
      * rewrite lookup_app_r by lia. rewrite lookup_drop.
        replace (length l + (i - length l))%nat with i by lia. exact Hi.
      * split; [reflexivity |]. split; [intros Hlt; lia | reflexivity].
Qed.

(** At a run of five posts in which the third [put_item] raises: the
    first three records hold a decimal, the last two the float they were
    built with. *)
Lemma C7_only_score_updated_witness :
  let w := Scenario.world_put_fails_at 5 2 Sample.validation_error in
  let s1 := (bind (get_secret Sample.runtime w) (fetch_and_score Sample.runtime w)
               initial_state).1 in
  let run := bind (persist Sample.runtime w) (fun _ => format_response Sample.runtime) s1 in
  let before := length (puts_of (trace s1)) in
  let handed := (length (puts_of (trace run.1)) - before)%nat in
  run.2 = Raise Sample.validation_error /\
  handed = 3%nat /\
  (processed_results run.1 !! 2%nat ≫= lookup "SentimentScore")
    = Some (PyDecimal (Decimal.Finite false 1 (-1))) /\
  (processed_results run.1 !! 3%nat ≫= lookup "SentimentScore")
    = Some (PyFloat (S754_zero false)) /\
  length (processed_results run.1) = length (processed_results s1) /\
  (handed <= length (processed_results s1))%nat /\
  ((exists resp, run.2 = Ok resp) -> handed = length (processed_results s1)) /\
  forall (i : nat) (it : item),
    processed_results s1 !! i = Some it ->
    exists it' : item,
      processed_results run.1 !! i = Some it' /\
      (forall key : string, key <> "SentimentScore" -> it' !! key = it !! key) /\
      ((i < handed)%nat ->
       puts_of (trace run.1) !! (before + i)%nat = Some it' /\
       exists v d, it !! "SentimentScore" = Some v /\
                   Decimal_of_str Sample.runtime v = Ok d /\
                   it' = <["SentimentScore" := PyDecimal d]> it) /\
      ((handed <= i)%nat -> it' = it).
Proof.
  intros w s1 run before handed.
  split; [vm_compute; reflexivity |].
  split; [vm_compute; reflexivity |].
  split; [vm_compute; reflexivity |].
  split; [vm_compute; reflexivity |].
  exact (C7_only_score_updated Sample.runtime w s1 run.1 run.2
           (surjective_pairing run)).
Defined.

(* ===================================================================== *)
(** * Successful invocations *)
(* ===================================================================== *)

(** C5. If the listing yields no post, the batch is empty: [put_item] is
    never called and no record exists; the handler returns status 200 and
    a body whose posts_count is 0. (The exit of a batch with nothing in it
    is assumed not to fail.) *)
Theorem C5_no_posts (rt : Runtime) (w : World) {E C : Type} (event : E) (context : C)
    (secret_string : string) (creds client_id client_secret : json) :
  get_secret_value w REGION_NAME SECRET_NAME = Ok {| SecretString := Some secret_string |} ->
  json_loads rt secret_string = Ok creds ->
  Json.getitem creds "client_id" = Ok client_id ->
  Json.getitem creds "client_secret" = Ok client_secret ->
  hot w client_id client_secret USER_AGENT SUBREDDIT_NAME LIMIT_POSTS = ([], None) ->
  batch_exit w TABLE_NAME [] false = None ->
  exists s : state,
    invoke rt w event context =
      (s, Ok {| statusCode := 200; body := response_text 0 |}) /\
    puts_of (trace s) = [] /\
    processed_results s = [].
Proof.
  intros Hsecret Hloads Hid Hsec Hhot Hexit.
  rewrite (invoke_run rt w event context _ _ _ _ _ _ Hsecret Hloads Hid Hsec Hhot eq_refl).
  unfold batch_outcome. cbn [built persist_run app]. rewrite Hexit.
  eexists. split; [rewrite response_body_text; reflexivity |].
  cbn [trace processed_results scored_state loop_events fmap list_fmap app length drop].
  split; reflexivity.
Qed.

Lemma C5_no_posts_witness :
  exists s : state,
    invoke Sample.runtime (Sample.world 0) tt tt =
      (s, Ok {| statusCode := 200; body := response_text 0 |}) /\
    puts_of (trace s) = [] /\
    processed_results s = [].
Proof.
  apply (C5_no_posts Sample.runtime (Sample.world 0) tt tt Sample.secret_text
           Sample.credentials (JStr "my-client-id") (JStr "my-client-secret"));
    reflexivity.
Defined.

(** C8. When the handler returns, the response has status code 200 and
    its body is the JSON text of an object with the integer field
    'posts_count', equal to the number of records processed (as many as
    were put), followed by the string field 'status' with its fixed
    message. *)
Theorem C8_response_shape (rt : Runtime) (w : World) {E C : Type} (event : E) (context : C)
    (s : state) (r : response) :
  invoke rt w event context = (s, Ok r) ->
  statusCode r = 200 /\
  body r = Json.dumps (float_str rt)
             (JObj [("posts_count", JInt (Z.of_nat (length (processed_results s))));
                    ("status", JStr STATUS_MESSAGE)]) /\
  body r = response_text (Z.of_nat (length (processed_results s))) /\
  length (puts_of (trace s)) = length (processed_results s).
Proof.
  intros Hrun.
  destruct (invoke_ok_inv rt w event context s r Hrun)
    as (sstr & creds & cid & csec & posts & Hsecret & Hloads & Hid & Hsec & Hhot).
  rewrite (invoke_run rt w event context _ _ _ _ _ _ Hsecret Hloads Hid Hsec Hhot eq_refl)
    in Hrun.
  destruct (batch_outcome rt w [] (built rt w SUBREDDIT_NAME 0 posts)) as [l oe] eqn:Hout.
  destruct oe as [e |]; [discriminate |].
  destruct (batch_outcome_spec rt w _ _ _ _ Hout) as [_ Hlen].
  specialize (Hlen eq_refl). rewrite length_built in Hlen.
  destruct (results_after_batch rt w _ _ _ _ Hout) as [Hlen' _].
  rewrite length_built in Hlen'.
  injection Hrun as <- <-. cbn [statusCode body processed_results trace].
  rewrite Hlen'. split; [reflexivity |]. split; [reflexivity |].
  split; [apply response_body_text |].
  match goal with
  | |- length (puts_of (_ :: _ :: ?evs)) = _ =>
      change (length (puts_of evs) = length posts)
  end.
  rewrite !puts_of_app, puts_of_loop_events, puts_of_put_events.
  match goal with
  | |- context [puts_of (EvBatchExit ?t :: ?evs)] =>
      change (puts_of (EvBatchExit t :: evs)) with (@nil item)
  end.
  rewrite app_nil_r. exact Hlen.
Qed.

Lemma C8_response_shape_witness :
  let run := invoke Sample.runtime (Sample.world 3) tt tt in
  let r := {| statusCode := 200; body := response_text 3 |} in
  run.2 = Ok r /\
  statusCode r = 200 /\
  body r = Json.dumps (float_str Sample.runtime)
             (JObj [("posts_count", JInt (Z.of_nat (length (processed_results run.1))));
                    ("status", JStr STATUS_MESSAGE)]) /\
  body r = response_text (Z.of_nat (length (processed_results run.1))) /\
  length (puts_of (trace run.1)) = length (processed_results run.1).
Proof.
  intros run r.
  assert (Hrun : run = (run.1, Ok r)) by (vm_compute; reflexivity).
  split; [rewrite Hrun at 1; reflexivity |].
  exact (C8_response_shape Sample.runtime (Sample.world 3) tt tt run.1 r Hrun).
Defined.

(* ===================================================================== *)
(** * Fifty posts *)
(* ===================================================================== *)

(** C6 as stated fails: the timestamp of a record is the reading of the
    clock at line 65, and nothing makes two readings differ. With 50
    posts and a clock that gives the same instant at every reading, the
    handler returns status 200 and the 50 records carry one and the same
    timestamp. *)
Lemma C6_counterexample :
  let run := invoke Sample.runtime (Scenario.world_frozen_clock 50) tt tt in
  let results := processed_results run.1 in
  run.2 = Ok {| statusCode := 200; body := response_text 50 |} /\
  length results = 50%nat /\
  (results !! 0%nat ≫= lookup "Timestamp") = Some (PyStr "2024-05-17T09:03:00.000001") /\
  (results !! 1%nat ≫= lookup "Timestamp") = Some (PyStr "2024-05-17T09:03:00.000001") /\
  lookup "Timestamp" <$> results
    = replicate 50 (Some (PyStr "2024-05-17T09:03:00.000001")).
Proof. cbv zeta. repeat split; vm_compute; reflexivity. Qed.

(** With a clock set back between two readings, the later record carries
    the smaller timestamp. *)
Lemma clock_set_back_timestamps :
  let results :=
    processed_results (invoke Sample.runtime (Scenario.world_clock_set_back 2) tt tt).1 in
  (results !! 0%nat ≫= lookup "Timestamp") = Some (PyStr "2024-05-17T09:03:01") /\
  (results !! 1%nat ≫= lookup "Timestamp") = Some (PyStr "2024-05-17T09:03:00.000002") /\
  String.compare "2024-05-17T09:03:01" "2024-05-17T09:03:00.000002" = Gt.
Proof. cbv zeta. repeat split; vm_compute; reflexivity. Qed.

(** C6 (amended). If the listing yields 50 posts, the invocation holds
    exactly 50 records; each carries the SubredditName 'valencia'; the
    record of the [i]-th post carries the ISO form of the [i]-th reading
    of the clock, its own, taken when that post is scored. The timestamps
    of two records compare, as strings, exactly as their two readings
    (two datetimes, with fields in range) compare as instants: they are
    equal exactly when the readings are, and the later record has the
    greater one exactly when the clock advanced between the two
    readings. *)
Theorem C6_fifty_posts (rt : Runtime) (w : World) {E C : Type} (event : E) (context : C)
    (secret_string : string) (creds client_id client_secret : json)
    (posts : list Post) (failure : option exn) :
  get_secret_value w REGION_NAME SECRET_NAME = Ok {| SecretString := Some secret_string |} ->
  json_loads rt secret_string = Ok creds ->
  Json.getitem creds "client_id" = Ok client_id ->
  Json.getitem creds "client_secret" = Ok client_secret ->
  hot w client_id client_secret USER_AGENT SUBREDDIT_NAME LIMIT_POSTS = (posts, failure) ->
  length posts = 50%nat ->
  let results := processed_results (invoke rt w event context).1 in
  length results = 50%nat /\
  (forall r : item, r ∈ results -> r !! "SubredditName" = Some (PyStr "valencia")) /\
  (forall (i : nat) (r : item), results !! i = Some r ->
     r !! "Timestamp" = Some (PyStr (Datetime.isoformat (now w i)))) /\
  (forall (i j : nat) (ri rj : item) (ti tj : string),
     (i < j)%nat -> results !! i = Some ri -> results !! j = Some rj ->
     ri !! "Timestamp" = Some (PyStr ti) -> rj !! "Timestamp" = Some (PyStr tj) ->
     Datetime.valid (now w i) -> Datetime.valid (now w j) ->
     String.compare ti tj = Datetime.compare (now w i) (now w j) /\
     (ti = tj <-> now w i = now w j) /\
     (String.compare ti tj = Lt <-> Datetime.lt (now w i) (now w j))).
Proof.
  intros Hsecret Hloads Hid Hsec Hhot Hlen results.
  destruct (invoke_results rt w event context _ _ _ _ _ _ Hsecret Hloads Hid Hsec Hhot)
    as [Hn Hrec].
  fold results in Hn, Hrec.
  assert (Hfield : forall i r, results !! i = Some r ->
            (i < 50)%nat /\
            r !! "SubredditName" = Some (PyStr "valencia") /\
            r !! "Timestamp" = Some (PyStr (Datetime.isoformat (now w i)))).
  { intros i r Hi. pose proof (lookup_lt_Some _ _ _ Hi) as Hlt.
    rewrite Hn in Hlt. split; [lia |].
    destruct (lookup_lt_is_Some_2 posts i Hlt) as [post Hpost].
    destruct (Hrec i post Hpost) as (r' & Hr' & Hkeys).
    rewrite Hi in Hr'. injection Hr' as <-.
    rewrite !Hkeys by discriminate.
    destruct (build_record_fields SUBREDDIT_NAME (Datetime.isoformat (now w i)) post
                (polarity_compound rt (post_title post))) as (H1 & H2 & _).
    split; [exact H1 | exact H2]. }
  split; [lia |]. split; [| split].
  - intros r Hr. apply list_elem_of_lookup in Hr as [i Hi].
    exact (proj1 (proj2 (Hfield i r Hi))).
  - intros i r Hi. exact (proj2 (proj2 (Hfield i r Hi))).
  - intros i j ri rj ti tj Hij Hi Hj Hti Htj Hvi Hvj.
    destruct (Hfield i ri Hi) as (Hi50 & _ & Hti').
    destruct (Hfield j rj Hj) as (Hj50 & _ & Htj').
    rewrite Hti in Hti'. rewrite Htj in Htj'.
    injection Hti' as ->. injection Htj' as ->.
    assert (Hcmp : String.compare (Datetime.isoformat (now w i))
                     (Datetime.isoformat (now w j))
                   = Datetime.compare (now w i) (now w j))
      by (apply DatetimeFacts.isoformat_compare; assumption).
    split; [exact Hcmp |]. split.
    + split.
      * intros Heq. apply DatetimeFacts.compare_eq_iff.
        rewrite <- Hcmp, Heq. apply DatetimeFacts.compare_refl.
      * intros ->. reflexivity.
    + rewrite Hcmp. apply DatetimeFacts.compare_lt_iff.
Qed.

Lemma C6_fifty_posts_witness :
  let w := Sample.world 50 in
  let results := processed_results (invoke Sample.runtime w tt tt).1 in
  length results = 50%nat /\
  (forall r : item, r ∈ results -> r !! "SubredditName" = Some (PyStr "valencia")) /\
  (forall (i : nat) (r : item), results !! i = Some r ->
     r !! "Timestamp" = Some (PyStr (Datetime.isoformat (now w i)))) /\
  (forall (i j : nat) (ri rj : item) (ti tj : string),
     (i < j)%nat -> results !! i = Some ri -> results !! j = Some rj ->
     ri !! "Timestamp" = Some (PyStr ti) -> rj !! "Timestamp" = Some (PyStr tj) ->
     Datetime.valid (now w i) -> Datetime.valid (now w j) ->
     String.compare ti tj = Datetime.compare (now w i) (now w j) /\
     (ti = tj <-> now w i = now w j) /\
     (String.compare ti tj = Lt <-> Datetime.lt (now w i) (now w j))).
Proof.
  intros w.
  apply (C6_fifty_posts Sample.runtime w tt tt Sample.secret_text
           Sample.credentials (JStr "my-client-id") (JStr "my-client-secret")
           (Sample.posts 50) None).
  - reflexivity.
  - reflexivity.
  - reflexivity.
  - reflexivity.
  - reflexivity.
  - reflexivity.
Defined.

(* ===================================================================== *)
(** * The stored score *)
(* ===================================================================== *)

(** C2. Every item handed to [put_item] is the record built for a post
    with its SentimentScore replaced by [Decimal(str(f))], where [f] is the
    float the scorer gave: the decimal is what the string of [f] reads
    as. A score whose string is "0.1" is stored as the decimal 1E-1. *)
Theorem C2_score_through_string (rt : Runtime) (w : World) {E C : Type}
    (event : E) (context : C) (it : item) :
  it ∈ puts_of (trace (invoke rt w event context).1) ->
  exists (post : Post) (timestamp : string) (d : Decimal.t),
    let f := polarity_compound rt (post_title post) in
    Decimal.of_string (float_str rt f) = Some d /\
    it = <["SentimentScore" := PyDecimal d]> (build_record SUBREDDIT_NAME timestamp post f) /\
    it !! "SentimentScore" = Some (PyDecimal d) /\
    (float_str rt f = "0.1" -> d = Decimal.Finite false 1 (-1)).
Proof.
  intros Hin. apply invoke_puts in Hin as (post & timestamp & Hc).
  apply convert_inv in Hc as (v & d & Hv & Hd & ->).
  destruct (build_record_fields SUBREDDIT_NAME timestamp post
              (polarity_compound rt (post_title post))) as (_ & _ & _ & _ & Hscore & _).
  rewrite Hscore in Hv. injection Hv as <-.
  cbn [Decimal_of_str] in Hd.
  destruct (Decimal.of_string (float_str rt (polarity_compound rt (post_title post))))
    as [d' |] eqn:Hparse; [| discriminate].
  injection Hd as ->.
  exists post, timestamp, d. cbv zeta. split; [exact Hparse |].
  split; [reflexivity |]. split; [apply lookup_insert_eq |].
  intros Hstr. rewrite Hstr in Hparse. vm_compute in Hparse. congruence.
Qed.

Lemma C2_score_through_string_witness :
  exists (post : Post) (timestamp : string) (d : Decimal.t),
    let f := polarity_compound Sample.runtime (post_title post) in
    Decimal.of_string (float_str Sample.runtime f) = Some d /\
    <["SentimentScore" := PyDecimal (Decimal.Finite false 1 (-1))]>
      (build_record SUBREDDIT_NAME (Datetime.isoformat (Sample.clock 0)) (Sample.post 0)
         Sample.float_0_1)
    = <["SentimentScore" := PyDecimal d]> (build_record SUBREDDIT_NAME timestamp post f) /\
    <["SentimentScore" := PyDecimal (Decimal.Finite false 1 (-1))]>
      (build_record SUBREDDIT_NAME (Datetime.isoformat (Sample.clock 0)) (Sample.post 0)
         Sample.float_0_1) !! "SentimentScore" = Some (PyDecimal d) /\
    (float_str Sample.runtime f = "0.1" -> d = Decimal.Finite false 1 (-1)).
Proof.
  apply (C2_score_through_string Sample.runtime (Sample.world 1) tt tt).
  vm_compute. apply list_elem_of_singleton. reflexivity.
Defined.

(** The direct conversion of the float nearest to 0.1 is another decimal:
    it has 55 digits and is not equal in value to 1E-1. *)
Example direct_cast_differs :
  Decimal.of_float Sample.float_0_1 =
    Decimal.Finite false 1000000000000000055511151231257827021181583404541015625 (-55) /\
  Decimal.of_string "0.1" = Some (Decimal.Finite false 1 (-1)) /\
  ~ Decimal.same_value (Decimal.of_float Sample.float_0_1) (Decimal.Finite false 1 (-1)).
Proof. repeat split; vm_compute; congruence. Qed.

(* ===================================================================== *)
(** * More on the label rule *)
(* ===================================================================== *)

(** Case analysis for the order of two floats of the same sign, read
    through the orders of their exponents and mantissas. *)
Ltac order_cases e1 e2 e3 m1 m2 m3 :=
  change (PosDef.Pos.compare_cont Eq m1 m2) with (Z.pos m1 ?= Z.pos m2) in *;
  change (PosDef.Pos.compare_cont Eq m2 m3) with (Z.pos m2 ?= Z.pos m3) in *;
  change (PosDef.Pos.compare_cont Eq m1 m3) with (Z.pos m1 ?= Z.pos m3) in *;
  destruct (Z.compare_spec e1 e2), (Z.compare_spec e2 e3), (Z.compare_spec e1 e3);
  try lia; try discriminate; try reflexivity;
  destruct (Z.compare_spec (Z.pos m1) (Z.pos m2)), (Z.compare_spec (Z.pos m2) (Z.pos m3)),
           (Z.compare_spec (Z.pos m1) (Z.pos m3));
  try lia; try discriminate; try reflexivity.

Lemma SFleb_trans (a b c : spec_float) :
  SFleb a b = true -> SFleb b c = true -> SFleb a c = true.
Proof.
  unfold SFleb.
  destruct a as [sa | sa | | sa ma ea], b as [sb | sb | | sb mb eb], c as [sc | sc | | sc mc ec];
    try destruct sa; try destruct sb; try destruct sc; cbn [SFcompare];
    try discriminate; try reflexivity.
  all: intros H1 H2; order_cases ea eb ec ma mb mc.
Qed.

(** No float is at once [>= 0.05] and [<= -0.05]. *)
Lemma ge_le_exclusive (s : spec_float) :
  Float.le s Float.lit_neg_0_05 = true -> Float.ge s Float.lit_0_05 = false.
Proof.
  intros Hle. destruct (Float.ge s Float.lit_0_05) eqn:Hge; [| reflexivity].
  unfold Float.ge, Float.le in *.
  pose proof (SFleb_trans _ _ _ Hge Hle) as H. vm_compute in H. discriminate.
Qed.

(** X1. The label rule is monotone in the score, for the order of
    floats: if [a <= b], a Positive [a] makes [b] Positive and a Negative
    [b] makes [a] Negative. *)
Theorem X1_label_monotone (a b : spec_float) :
  Float.le a b = true ->
  (sentiment_label a = "Positive" -> sentiment_label b = "Positive") /\
  (sentiment_label b = "Negative" -> sentiment_label a = "Negative").
Proof.
  intros Hab. unfold Float.le in Hab.
  destruct (sentiment_label_cases a) as (Hpa & Hna & _).
  destruct (sentiment_label_cases b) as (Hpb & Hnb & _).
  split.
  - intros Ha. apply Hpb. apply Hpa in Ha. unfold Float.ge in *.
    exact (SFleb_trans _ _ _ Ha Hab).
  - intros Hb. apply Hnb in Hb as [_ Hle]. apply Hna.
    assert (Hle' : Float.le a Float.lit_neg_0_05 = true)
      by (unfold Float.le in *; exact (SFleb_trans _ _ _ Hab Hle)).
    split; [apply ge_le_exclusive; exact Hle' | exact Hle'].
Qed.

Lemma X1_label_monotone_witness :
  (sentiment_label Float.lit_0_05 = "Positive" ->
   sentiment_label Sample.float_0_1 = "Positive") /\
  (sentiment_label Sample.float_0_1 = "Negative" ->
   sentiment_label Float.lit_0_05 = "Negative").
Proof.
  apply (X1_label_monotone Float.lit_0_05 Sample.float_0_1). reflexivity.
Defined.

(** X2. The label rule is symmetric: the opposite of a score gets the
    opposite label, and a Neutral score stays Neutral. *)
Theorem X2_label_symmetric (s : spec_float) :
  (sentiment_label (SFopp s) = "Positive" <-> sentiment_label s = "Negative") /\
  (sentiment_label (SFopp s) = "Negative" <-> sentiment_label s = "Positive") /\
  (sentiment_label (SFopp s) = "Neutral" <-> sentiment_label s = "Neutral").
Proof.
  assert (Hopp : SFopp (SFopp s) = s) by (destruct s as [[] | [] | | [] m e]; reflexivity).
  pose proof (FloatFacts.le_neg_lit_opp s) as H1.
  pose proof (FloatFacts.le_neg_lit_opp (SFopp s)) as H2. rewrite Hopp in H2.
  pose proof (ge_le_exclusive s) as Hex.
  pose proof (ge_le_exclusive (SFopp s)) as Hex'.
  unfold sentiment_label. rewrite <- H1, H2.
  destruct (Float.ge s Float.lit_0_05) eqn:G; destruct (Float.le s Float.lit_neg_0_05) eqn:L;
    try (specialize (Hex eq_refl); discriminate);
    repeat split; intros; try discriminate; try reflexivity.
Qed.

(* ===================================================================== *)
(** * Reading the trace of an invocation *)
(* ===================================================================== *)

Lemma printed_app (a b : list event) : printed (a ++ b) = printed a ++ printed b.
Proof. unfold printed. apply omap_app. Qed.

Lemma stages_app (a b : list event) : stages (a ++ b) = stages a ++ stages b.
Proof. unfold stages. apply omap_app. Qed.

Lemma printed_put_events table (l : list item) : printed (EvPutItem table <$> l) = [].
Proof. induction l as [| x l IH]; [reflexivity | exact IH]. Qed.

Lemma stages_put_events table (l : list item) :
  stages (EvPutItem table <$> l) = replicate (length l) 3%nat.
Proof.
  induction l as [| x l IH]; [reflexivity |].
  change (3%nat :: stages (EvPutItem table <$> l) = 3%nat :: replicate (length l) 3%nat).
  f_equal. exact IH.
Qed.

Lemma printed_loop_events (n : nat) (posts : list Post) :
  printed (loop_events n posts) = progress_line <$> seq (S n) (length posts).
Proof.
  revert n. induction posts as [| p rest IH]; intros n; [reflexivity |].
  change (progress_line (S n) :: printed (loop_events (S n) rest)
          = progress_line (S n) :: (progress_line <$> seq (S (S n)) (length rest))).
  f_equal. apply IH.
Qed.

Lemma stages_loop_events (n : nat) (posts : list Post) :
  stages (loop_events n posts) = replicate (length posts) 2%nat.
Proof.
  revert n. induction posts as [| p rest IH]; intros n; [reflexivity |].
  change (2%nat :: stages (loop_events (S n) rest)
          = 2%nat :: replicate (length rest) 2%nat).
  f_equal. apply IH.
Qed.

(* ===================================================================== *)
(** * Failures between the secret store and the listing *)
(* ===================================================================== *)

(** X3. If the secret is binary (the response has no 'SecretString'),
    the handler raises [KeyError('SecretString')] right after the call to
    the secret store: nothing is printed, fetched or written. *)
Theorem X3_binary_secret (rt : Runtime) (w : World) {E C : Type} (event : E) (context : C) :
  get_secret_value w REGION_NAME SECRET_NAME = Ok {| SecretString := None |} ->
  invoke rt w event context =
  ({| trace := [EvGetSecretValue REGION_NAME SECRET_NAME];
      ticks := 0; processed_results := [] |},
   Raise (KeyError "SecretString")).
Proof.
  intros Hsecret. unfold invoke, lambda_handler, bind at 1.
  rewrite get_secret_run, Hsecret. reflexivity.
Qed.

Lemma X3_binary_secret_witness :
  invoke Sample.runtime Scenario.world_binary_secret tt tt =
  ({| trace := [EvGetSecretValue REGION_NAME SECRET_NAME];
      ticks := 0; processed_results := [] |},
   Raise (KeyError "SecretString")).
Proof.
  apply (X3_binary_secret Sample.runtime Scenario.world_binary_secret tt tt). reflexivity.
Defined.

(** X4. If the secret string is not JSON, the exception of [json.loads]
    leaves the handler as it is, right after the call to the secret
    store: it is not printed (whatever its class), nothing is fetched or
    written. *)
Theorem X4_secret_not_json (rt : Runtime) (w : World) {E C : Type} (event : E) (context : C)
    (secret_string : string) (e : exn) :
  get_secret_value w REGION_NAME SECRET_NAME = Ok {| SecretString := Some secret_string |} ->
  json_loads rt secret_string = Raise e ->
  invoke rt w event context =
  ({| trace := [EvGetSecretValue REGION_NAME SECRET_NAME];
      ticks := 0; processed_results := [] |},
   Raise e).
Proof.
  intros Hsecret Hloads. unfold invoke, lambda_handler, bind at 1.
  rewrite get_secret_run, Hsecret. cbn [SecretString]. rewrite Hloads. reflexivity.
Qed.

Lemma X4_secret_not_json_witness :
  invoke Sample.runtime Scenario.world_garbled_secret tt tt =
  ({| trace := [EvGetSecretValue REGION_NAME SECRET_NAME];
      ticks := 0; processed_results := [] |},
   Raise (OtherError "JSONDecodeError" "Expecting value")).
Proof.
  apply (X4_secret_not_json Sample.runtime Scenario.world_garbled_secret tt tt
           "client_id=abc"); reflexivity.
Defined.

(** X5. If the secret parses to JSON that is not an object (a list, a
    string, a number, true, false or null), the subscript
    [PRAW_CREDENTIALS['client_id']] raises a [TypeError]; the handler
    raises it right after the call to the secret store, unprinted. *)
Theorem X5_credentials_not_an_object (rt : Runtime) (w : World) {E C : Type}
    (event : E) (context : C) (secret_string : string) (creds : json) :
  get_secret_value w REGION_NAME SECRET_NAME = Ok {| SecretString := Some secret_string |} ->
  json_loads rt secret_string = Ok creds ->
  (forall kvs, creds <> JObj kvs) ->
  exists msg,
    Json.getitem creds "client_id" = Raise (TypeError msg) /\
    invoke rt w event context =
    ({| trace := [EvGetSecretValue REGION_NAME SECRET_NAME];
        ticks := 0; processed_results := [] |},
     Raise (TypeError msg)).
Proof.
  intros Hsecret Hloads Hobj.
  assert (Hfail : exists msg, Json.getitem creds "client_id" = Raise (TypeError msg)).
  { destruct creds; cbn; eauto. exfalso. exact (Hobj _ eq_refl). }
  destruct Hfail as [msg Hmsg]. exists msg. split; [exact Hmsg |].
  unfold invoke, lambda_handler, bind at 1.
  rewrite get_secret_run, Hsecret. cbn [SecretString]. rewrite Hloads.
  unfold bind at 1. rewrite fetch_and_score_run, Hmsg. reflexivity.
Qed.

Lemma X5_credentials_not_an_object_witness :
  exists msg,
    Json.getitem (JArr [JStr "my-client-id"; JStr "my-client-secret"]) "client_id"
    = Raise (TypeError msg) /\
    invoke Scenario.runtime_list_secret (Sample.world 3) tt tt =
    ({| trace := [EvGetSecretValue REGION_NAME SECRET_NAME];
        ticks := 0; processed_results := [] |},
     Raise (TypeError msg)).
Proof.
  apply (X5_credentials_not_an_object Scenario.runtime_list_secret (Sample.world 3) tt tt
           Sample.secret_text (JArr [JStr "my-client-id"; JStr "my-client-secret"])).
  - reflexivity.
  - reflexivity.
  - intros kvs H. discriminate.
Defined.

(* ===================================================================== *)
(** * A listing that fails *)
(* ===================================================================== *)

(** X6. If the listing fails with [e] after yielding some posts, the
    handler raises [e] once those posts are scored: a record exists for
    each of them, but the batch writer is never used ([put_item] is not
    called, the batch is not closed), and only the progress lines are
    printed, even when [e] is a [ClientError]. *)
Theorem X6_listing_failure (rt : Runtime) (w : World) {E C : Type} (event : E) (context : C)
    (secret_string : string) (creds client_id client_secret : json)
    (posts : list Post) (e : exn) :
  get_secret_value w REGION_NAME SECRET_NAME = Ok {| SecretString := Some secret_string |} ->
  json_loads rt secret_string = Ok creds ->
  Json.getitem creds "client_id" = Ok client_id ->
  Json.getitem creds "client_secret" = Ok client_secret ->
  hot w client_id client_secret USER_AGENT SUBREDDIT_NAME LIMIT_POSTS = (posts, Some e) ->
  exists s : state,
    invoke rt w event context = (s, Raise e) /\
    length (processed_results s) = length posts /\
    puts_of (trace s) = [] /\
    stages (trace s) = 0%nat :: 1%nat :: replicate (length posts) 2%nat /\
    printed (trace s) = progress_line <$> seq 1 (length posts).
Proof.
  intros Hsecret Hloads Hid Hsec Hhot.
  exists (scored_state rt w client_id client_secret posts).
  split.
  - unfold invoke, lambda_handler. rewrite bind_assoc.
    rewrite (bind_raise _ _ _ _ _
               (scored_run rt w _ _ _ _ _ _ Hsecret Hloads Hid Hsec Hhot)).
    reflexivity.
  - split; [apply length_built |].
    split; [apply (puts_of_scored_state rt w) |].
    cbn [scored_state trace]. split.
    + change (0%nat :: 1%nat :: stages (loop_events 0 posts)
              = 0%nat :: 1%nat :: replicate (length posts) 2%nat).
      rewrite stages_loop_events. reflexivity.
    + change (printed (loop_events 0 posts) = progress_line <$> seq 1 (length posts)).
      apply printed_loop_events.
Qed.

Lemma X6_listing_failure_witness :
  exists s : state,
    invoke Sample.runtime (Scenario.world_listing_fails 2 Scenario.too_many_requests) tt tt
    = (s, Raise Scenario.too_many_requests) /\
    length (processed_results s) = length (Sample.posts 2) /\
    puts_of (trace s) = [] /\
    stages (trace s) = 0%nat :: 1%nat :: replicate (length (Sample.posts 2)) 2%nat /\
    printed (trace s) = progress_line <$> seq 1 (length (Sample.posts 2)).
Proof.
  apply (X6_listing_failure Sample.runtime
           (Scenario.world_listing_fails 2 Scenario.too_many_requests) tt tt
           Sample.secret_text Sample.credentials (JStr "my-client-id")
           (JStr "my-client-secret") (Sample.posts 2) Scenario.too_many_requests);
    reflexivity.
Defined.

(* ===================================================================== *)
(** * The shape of every invocation *)
(* ===================================================================== *)

Section Shapes.

Context (rt : Runtime) (w : World).
Context {E C : Type} (ev : E) (ctx : C).

(** An invocation stops before the listing, or while it scores the
    listing, or goes through the batch. *)
Lemma invoke_shapes :
  (exists e,
     invoke rt w ev ctx =
     ({| trace := EvGetSecretValue REGION_NAME SECRET_NAME
                  :: (if is_ClientError e then [EvPrint secret_error_line] else []);
         ticks := 0; processed_results := [] |}, Raise e)
     \/
     invoke rt w ev ctx =
     ({| trace := [EvGetSecretValue REGION_NAME SECRET_NAME];
         ticks := 0; processed_results := [] |}, Raise e))
  \/
  (exists cid csec posts e,
     invoke rt w ev ctx = (scored_state rt w cid csec posts, Raise e))
  \/
  (exists cid csec posts l oe,
     batch_outcome rt w [] (built rt w SUBREDDIT_NAME 0 posts) = (l, oe) /\
     invoke rt w ev ctx =
     ({| trace := trace (scored_state rt w cid csec posts)
                  ++ (EvPutItem TABLE_NAME <$> l) ++ EvBatchExit TABLE_NAME
                  :: match oe with
                     | None => [EvPrint (success_line (length posts))]
                     | Some e =>
                         if is_ClientError e then [EvPrint (persist_error_line e)] else []
                     end;
         ticks := length posts;
         processed_results := l ++ drop (length l) (built rt w SUBREDDIT_NAME 0 posts) |},
      match oe with
      | None => Ok {| statusCode := 200; body := response_body rt (length posts) |}
      | Some e => Raise e
      end)).
Proof.
  destruct (get_secret_value w REGION_NAME SECRET_NAME) as [response | e] eqn:Hsecret.
  2: { left. exists e. left. exact (invoke_secret_failure rt w ev ctx e Hsecret). }
  destruct (credentials_of rt response) as [[cid csec] | e] eqn:Hcreds.
  2: { left. exists e. right.
       exact (invoke_credentials_failure rt w ev ctx response e Hsecret Hcreds). }
  apply credentials_of_ok in Hcreds as (sstr & creds & -> & Hloads & Hid & Hsec).
  destruct (hot w cid csec USER_AGENT SUBREDDIT_NAME LIMIT_POSTS) as [posts failure] eqn:Hhot.
  right. destruct failure as [e |].
  - left. exists cid, csec, posts, e.
    exact (invoke_fetch_failure rt w ev ctx _ _ _ _ _ _
             Hsecret Hloads Hid Hsec Hhot e eq_refl).
  - right. exists cid, csec, posts.
    pose proof (invoke_run rt w ev ctx _ _ _ _ _ _
                  Hsecret Hloads Hid Hsec Hhot eq_refl) as Hrun.
    destruct (batch_outcome rt w [] (built rt w SUBREDDIT_NAME 0 posts)) as [l oe].
    exists l, oe. split; [reflexivity | exact Hrun].
Qed.

Lemma puts_of_batch_trace (cid csec : json) (posts : list Post) (l : list item) (tail : list event) :
  puts_of tail = [] ->
  puts_of (trace (scored_state rt w cid csec posts)
           ++ (EvPutItem TABLE_NAME <$> l) ++ EvBatchExit TABLE_NAME :: tail) = l.
Proof.
  intros Htail. rewrite !puts_of_app, (puts_of_scored_state rt w), puts_of_put_events.
  change (puts_of (EvBatchExit TABLE_NAME :: tail)) with (puts_of tail).
  rewrite Htail, app_nil_r. reflexivity.
Qed.

Lemma puts_of_batch_events (cid csec : json) (posts : list Post) (l : list item)
    (tail : list event) :
  puts_of tail = [] ->
  puts_of (EvGetSecretValue REGION_NAME SECRET_NAME
           :: EvHot cid csec USER_AGENT SUBREDDIT_NAME LIMIT_POSTS
           :: loop_events 0 posts
           ++ (EvPutItem TABLE_NAME <$> l) ++ EvBatchExit TABLE_NAME :: tail) = l.
Proof. exact (puts_of_batch_trace cid csec posts l tail). Qed.

Lemma puts_of_batch_tail (n : nat) (oe : option exn) :
  puts_of match oe with
          | None => [EvPrint (success_line n)]
          | Some e => if is_ClientError e then [EvPrint (persist_error_line e)] else []
          end = [].
Proof. destruct oe as [e |]; [destruct (is_ClientError e) |]; reflexivity. Qed.

Lemma stages_batch_tail (n : nat) (oe : option exn) :
  stages match oe with
         | None => [EvPrint (success_line n)]
         | Some e => if is_ClientError e then [EvPrint (persist_error_line e)] else []
         end = [].
Proof. destruct oe as [e |]; [destruct (is_ClientError e) |]; reflexivity. Qed.

(** The length of what the batch handed over never exceeds the list. *)
Lemma batch_outcome_length (sent todo l : list item) (oe : option exn) :
  batch_outcome rt w sent todo = (l, oe) -> (length l <= length todo)%nat.
Proof.
  intros H. apply batch_outcome_spec in H as [Hall _].
  apply Forall2_length in Hall. rewrite length_take in Hall. lia.
Qed.

End Shapes.

(** Once the handles are built, the calls come in the order of the
    pipeline. *)
Lemma invoke_pipeline_order (rt : Runtime) (w : World) {E C : Type} (event : E) (context : C) :
  let s := (invoke rt w event context).1 in
  let n := length (processed_results s) in
  let k := length (puts_of (trace s)) in
  ticks s = n /\ (k <= n)%nat /\
  (stages (trace s) = [0%nat] /\ n = 0%nat \/
   stages (trace s) = 0%nat :: 1%nat :: replicate n 2%nat /\ k = 0%nat \/
   stages (trace s) = 0%nat :: 1%nat :: replicate n 2%nat ++ replicate k 3%nat ++ [4%nat]).
Proof.
  cbv zeta.
  destruct (invoke_shapes rt w event context)
    as [[e [-> | ->]] | [(cid & csec & posts & e & ->) | (cid & csec & posts & l & oe & Hout & ->)]];
    cbn [fst trace ticks processed_results].
  - split; [reflexivity |].
    split; [destruct (is_ClientError e); change (0 <= 0)%nat; lia |].
    left. split; [destruct (is_ClientError e); reflexivity | reflexivity].
  - split; [reflexivity |]. split; [change (0 <= 0)%nat; lia |].
    left. split; reflexivity.
  - cbn [scored_state trace ticks processed_results].
    rewrite length_built.
    change (puts_of (EvGetSecretValue REGION_NAME SECRET_NAME
                     :: EvHot cid csec USER_AGENT SUBREDDIT_NAME LIMIT_POSTS
                     :: loop_events 0 posts))
      with (puts_of (loop_events 0 posts)).
    rewrite puts_of_loop_events.
    split; [reflexivity |]. split; [cbn; lia |]. right. left. split; [| reflexivity].
    change (0%nat :: 1%nat :: stages (loop_events 0 posts)
            = 0%nat :: 1%nat :: replicate (length posts) 2%nat).
    rewrite stages_loop_events. reflexivity.
  - destruct (results_after_batch rt w _ _ _ _ Hout) as [Hlen _].
    rewrite length_built in Hlen. rewrite Hlen.
    rewrite (puts_of_batch_trace rt w) by apply puts_of_batch_tail.
    pose proof (batch_outcome_length rt w _ _ _ _ Hout) as Hk. rewrite length_built in Hk.
    split; [reflexivity |]. split; [exact Hk |]. right. right.
    cbn [scored_state trace].
    rewrite !stages_app, stages_put_events.
    change (stages (EvGetSecretValue REGION_NAME SECRET_NAME
                    :: EvHot cid csec USER_AGENT SUBREDDIT_NAME LIMIT_POSTS
                    :: loop_events 0 posts))
      with (0%nat :: 1%nat :: stages (loop_events 0 posts)).
    rewrite stages_loop_events.
    match goal with
    | |- context [stages (EvBatchExit ?t :: ?tail)] =>
        change (stages (EvBatchExit t :: tail)) with (4%nat :: stages tail)
    end.
    rewrite stages_batch_tail. reflexivity.
Qed.

(** The construction of the handles either stops the invocation, before
    any call and any print, with the exception of the first handle that
    cannot be built, or leaves the rest of the handler to run from the
    initial state. *)
Lemma invocation_run (h : Handles) (rt : Runtime) (w : World) {E C : Type}
    (event : E) (context : C) :
  invocation h rt w event context =
  match first_failure h with
  | Some e => (initial_state, Raise e)
  | None => invoke rt w event context
  end.
Proof.
  unfold invocation, lambda_handler_from_handles, first_failure, invoke, construct.
  destruct (boto3_resource h "dynamodb" REGION_NAME) as [e |]; [reflexivity |].
  destruct (dynamo_Table h TABLE_NAME) as [e |]; [reflexivity |].
  destruct (boto3_client h "secretsmanager" REGION_NAME) as [e |]; reflexivity.
Qed.

(** With every handle built, a whole invocation is the run of the rest
    of the handler: what is proved of [invoke] holds of it. *)
Lemma invocation_built (rt : Runtime) (w : World) {E C : Type} (event : E) (context : C) :
  invocation Scenario.handles_built rt w event context = invoke rt w event context.
Proof. reflexivity. Qed.

(** A missing profile stops the invocation at line 37. *)
Lemma invocation_without_profile :
  invocation Scenario.handles_no_profile Sample.runtime (Sample.world 3) tt tt
  = (initial_state, Raise Scenario.profile_not_found).
Proof. reflexivity. Qed.

(** No service is called before the secret store. *)
Lemma first_call_is_to_secret_store (h : Handles) (rt : Runtime) (w : World) {E C : Type}
    (event : E) (context : C) :
  let s := (invocation h rt w event context).1 in
  trace s = [] \/ exists rest, trace s = EvGetSecretValue REGION_NAME SECRET_NAME :: rest.
Proof.
  cbv zeta. rewrite invocation_run. destruct (first_failure h) as [e |].
  - left. reflexivity.
  - right.
    destruct (invoke_shapes rt w event context)
      as [[e [-> | ->]] | [(cid & csec & posts & e & ->) | (cid & csec & posts & l & oe & _ & ->)]];
      cbn; eauto.
Qed.

(** X7. In every invocation the calls come in the order of the
    pipeline. If one of the handles of lines 37, 38 and 24 cannot be
    built, the exception leaves the handler before any call, print or
    record. Otherwise: one call to the secret store; then, if at all,
    one request of the listing followed by one clock reading per record;
    then, if at all, the [put_item] calls, no more than there are
    records, and the exit of the batch writer last. The number of clock
    readings is the number of records. *)
Theorem X7_pipeline_order (h : Handles) (rt : Runtime) (w : World) {E C : Type}
    (event : E) (context : C) :
  let run := invocation h rt w event context in
  let s := run.1 in
  let n := length (processed_results s) in
  let k := length (puts_of (trace s)) in
  ticks s = n /\ (k <= n)%nat /\
  match first_failure h with
  | Some e => trace s = [] /\ n = 0%nat /\ run.2 = Raise e
  | None =>
      stages (trace s) = [0%nat] /\ n = 0%nat \/
      stages (trace s) = 0%nat :: 1%nat :: replicate n 2%nat /\ k = 0%nat \/
      stages (trace s) = 0%nat :: 1%nat :: replicate n 2%nat ++ replicate k 3%nat ++ [4%nat]
  end.
Proof.
  cbv zeta. rewrite invocation_run. destruct (first_failure h) as [e |].
  - cbn. repeat split. change (0 <= 0)%nat. lia.
  - exact (invoke_pipeline_order rt w event context).
Qed.

(* ===================================================================== *)
(** * What is written *)
(* ===================================================================== *)

Section Written.

Context (rt : Runtime) (w : World).

(** A [put_item] that raises is the last one of the loop, and its
    exception is the one that stops the loop. *)
Lemma persist_run_stops (sent todo l : list item) (oe : option exn)
    (k : nat) (it : item) (e : exn) :
  persist_run rt w sent todo = (l, oe) ->
  l !! k = Some it ->
  put_item w TABLE_NAME (sent ++ take k l) it = Some e ->
  length l = S k /\ oe = Some e.
Proof.
  revert sent l oe k. induction todo as [| it0 rest IH]; intros sent l oe k; cbn [persist_run].
  - intros H. inversion H; subst. discriminate.
  - destruct (convert rt it0) as [it' | e0].
    + destruct (put_item w TABLE_NAME sent it') as [e0 |] eqn:Hput.
      * intros H. inversion H; subst. destruct k as [| k]; [| discriminate].
        cbn. intros Hit. injection Hit as <-. rewrite app_nil_r, Hput.
        intros He. injection He as <-. auto.
      * destruct (persist_run rt w (sent ++ [it']) rest) as [l' oe'] eqn:Hrun.
        intros H. inversion H; subst. destruct k as [| k]; cbn.
        -- intros Hit. injection Hit as <-. rewrite app_nil_r, Hput. discriminate.
        -- intros Hit Hfail.
           replace (sent ++ it' :: take k l') with ((sent ++ [it']) ++ take k l') in Hfail
             by (rewrite <- app_assoc; reflexivity).
           destruct (IH _ _ _ _ Hrun Hit Hfail) as [Hlen ->]. auto.
    + intros H. inversion H; subst. discriminate.
Qed.

(** When every record converts and every [put_item] returns, the loop
    goes through the whole list. *)
Lemma persist_run_all_ok (sent todo : list item) :
  Forall (fun it => exists it', convert rt it = Ok it') todo ->
  (forall sent' it', put_item w TABLE_NAME sent' it' = None) ->
  exists l, persist_run rt w sent todo = (l, None).
Proof.
  intros Hall Hput. revert sent.
  induction Hall as [| it rest [it' Hit'] _ IH]; intros sent; cbn [persist_run].
  - eauto.
  - rewrite Hit', Hput. destruct (IH (sent ++ [it'])) as [l ->]. eauto.
Qed.

End Written.

(** X8. In every invocation, the items handed to [put_item] are the
    first records of [processed_results] at the end, in the same order
    and with the same content: these hold a [Decimal] score, the records
    after them still hold the float. When a response is returned, every
    record was handed over. *)
Theorem X8_written_prefix (rt : Runtime) (w : World) {E C : Type} (event : E) (context : C) :
  let s := (invoke rt w event context).1 in
  let puts := puts_of (trace s) in
  take (length puts) (processed_results s) = puts /\
  (forall it : item, it ∈ puts ->
     exists d, it !! "SentimentScore" = Some (PyDecimal d)) /\
  (forall (i : nat) (it : item), (length puts <= i)%nat ->
     processed_results s !! i = Some it ->
     exists f, it !! "SentimentScore" = Some (PyFloat f)) /\
  (forall r, (invoke rt w event context).2 = Ok r -> puts = processed_results s).
Proof.
  cbv zeta.
  destruct (invoke_shapes rt w event context)
    as [[e [-> | ->]] | [(cid & csec & posts & e & ->) | (cid & csec & posts & l & oe & Hout & ->)]];
    cbn [fst snd trace ticks processed_results].
  - replace (puts_of _) with (@nil item) by (destruct (is_ClientError e); reflexivity).
    split; [reflexivity |]. split; [intros it H; by apply elem_of_nil in H |].
    split; [intros i it _ H; discriminate | discriminate].
  - change (puts_of [EvGetSecretValue REGION_NAME SECRET_NAME]) with (@nil item).
    split; [reflexivity |]. split; [intros it H; by apply elem_of_nil in H |].
    split; [intros i it _ H; discriminate | discriminate].
  - rewrite (puts_of_scored_state rt w). cbn [scored_state processed_results length take].
    split; [reflexivity |]. split; [intros it H; by apply elem_of_nil in H |].
    split; [| discriminate].
    intros i it _ Hi. apply built_lookup_inv in Hi as (post & _ & ->).
    eexists. apply build_record_fields.
  - rewrite (puts_of_batch_trace rt w) by apply puts_of_batch_tail.
    destruct (batch_outcome_spec rt w _ _ _ _ Hout) as [Hall Hlen].
    split; [apply take_app_length |]. split; [| split].
    + intros it Hit. apply list_elem_of_lookup in Hit as [i Hi].
      destruct (Forall2_lookup_r _ _ _ i it Hall Hi) as (r0 & _ & Hc).
      apply convert_inv in Hc as (v & d & _ & _ & ->).
      exists d. apply lookup_insert_eq.
    + intros i it Hi Hlook. rewrite lookup_app_r in Hlook by exact Hi.
      rewrite lookup_drop in Hlook.
      apply built_lookup_inv in Hlook as (post & _ & ->).
      eexists. apply build_record_fields.
    + intros r Hr. destruct oe as [e |]; [discriminate |].
      rewrite (Hlen eq_refl), drop_all, app_nil_r. reflexivity.
Qed.

(** X9. The items handed to [put_item] follow the listing: the [i]-th
    item is the record of the [i]-th post, with that post's id and title,
    the subreddit, the timestamp of the [i]-th clock reading and the
    label of the title's score. *)
Theorem X9_items_follow_listing (rt : Runtime) (w : World) {E C : Type}
    (event : E) (context : C)
    (secret_string : string) (creds client_id client_secret : json)
    (posts : list Post) (failure : option exn) :
  get_secret_value w REGION_NAME SECRET_NAME = Ok {| SecretString := Some secret_string |} ->
  json_loads rt secret_string = Ok creds ->
  Json.getitem creds "client_id" = Ok client_id ->
  Json.getitem creds "client_secret" = Ok client_secret ->
  hot w client_id client_secret USER_AGENT SUBREDDIT_NAME LIMIT_POSTS = (posts, failure) ->
  forall (i : nat) (it : item),
    puts_of (trace (invoke rt w event context).1) !! i = Some it ->
    exists post : Post,
      posts !! i = Some post /\
      it !! "PostID" = Some (PyStr (post_id post)) /\
      it !! "Title" = Some (PyStr (post_title post)) /\
      it !! "SubredditName" = Some (PyStr "valencia") /\
      it !! "Timestamp" = Some (PyStr (Datetime.isoformat (now w i))) /\
      it !! "SentimentLabel"
      = Some (PyStr (sentiment_label (polarity_compound rt (post_title post)))).
Proof.
  intros Hsecret Hloads Hid Hsec Hhot i it.
  destruct failure as [e |].
  { rewrite (invoke_fetch_failure rt w event context _ _ _ _ _ _
               Hsecret Hloads Hid Hsec Hhot e eq_refl).
    cbn [fst]. rewrite (puts_of_scored_state rt w). discriminate. }
  rewrite (invoke_run rt w event context _ _ _ _ _ _ Hsecret Hloads Hid Hsec Hhot eq_refl).
  destruct (batch_outcome rt w [] (built rt w SUBREDDIT_NAME 0 posts)) as [l oe] eqn:Hout.
  cbn [fst trace].
  rewrite (puts_of_batch_trace rt w)
    by (destruct oe as [e |]; [destruct (is_ClientError e) |]; reflexivity).
  intros Hi.
  destruct (batch_outcome_spec rt w _ _ _ _ Hout) as [Hall _].
  destruct (Forall2_lookup_r _ _ _ i it Hall Hi) as (r0 & Hr0 & Hc).
  apply lookup_take_Some in Hr0 as [Hr0 _].
  apply built_lookup_inv in Hr0 as (post & Hpost & ->).
  exists post. split; [exact Hpost |].
  rewrite !(convert_other_fields rt _ _ _ Hc) by discriminate.
  destruct (build_record_fields SUBREDDIT_NAME (Datetime.isoformat (now w (0 + i))) post
              (polarity_compound rt (post_title post))) as (H1 & H2 & H3 & H4 & _ & H6).
  auto 10.
Qed.

Lemma X9_items_follow_listing_witness :
  let it := default ∅ (puts_of (trace (invoke Sample.runtime (Sample.world 3) tt tt).1)
                        !! 1%nat) in
  exists post : Post,
    Sample.posts 3 !! 1%nat = Some post /\
    it !! "PostID" = Some (PyStr (post_id post)) /\
    it !! "Title" = Some (PyStr (post_title post)) /\
    it !! "SubredditName" = Some (PyStr "valencia") /\
    it !! "Timestamp" = Some (PyStr (Datetime.isoformat (Sample.clock 1))) /\
    it !! "SentimentLabel"
    = Some (PyStr (sentiment_label (Sample.compound (post_title post)))).
Proof.
  apply (X9_items_follow_listing Sample.runtime (Sample.world 3) tt tt Sample.secret_text
           Sample.credentials (JStr "my-client-id") (JStr "my-client-secret")
           (Sample.posts 3) None); reflexivity.
Defined.

(** X10. The handler stops at the first [put_item] that raises: that
    call is the last one, the records after it are never handed over, and
    no response is returned; the exception raised is that of [put_item]
    unless the exit of the batch writer raises one of its own. *)
Theorem X10_stops_at_failing_put (rt : Runtime) (w : World) {E C : Type}
    (event : E) (context : C) (k : nat) (it : item) (e : exn) :
  let puts := puts_of (trace (invoke rt w event context).1) in
  puts !! k = Some it ->
  put_item w TABLE_NAME (take k puts) it = Some e ->
  length puts = S k /\
  (exists e', (invoke rt w event context).2 = Raise e') /\
  (batch_exit w TABLE_NAME puts true = None -> (invoke rt w event context).2 = Raise e).
Proof.
  cbv zeta.
  destruct (invoke_shapes rt w event context)
    as [[e0 [-> | ->]] | [(cid & csec & posts & e0 & ->) | (cid & csec & posts & l & oe & Hout & ->)]];
    cbn [fst snd trace].
  - replace (puts_of _) with (@nil item) by (destruct (is_ClientError e0); reflexivity).
    discriminate.
  - change (puts_of [EvGetSecretValue REGION_NAME SECRET_NAME]) with (@nil item).
    discriminate.
  - rewrite (puts_of_scored_state rt w). discriminate.
  - rewrite (puts_of_batch_trace rt w) by apply puts_of_batch_tail.
    intros Hit Hfail. unfold batch_outcome in Hout.
    destruct (persist_run rt w [] (built rt w SUBREDDIT_NAME 0 posts)) as [l0 oe0] eqn:Hrun.
    injection Hout as -> Hoe.
    destruct (persist_run_stops rt w [] _ _ _ k it e Hrun Hit Hfail) as [Hlen ->].
    cbn [app] in Hoe. split; [exact Hlen |].
    destruct (batch_exit w TABLE_NAME l true) as [e' |]; subst oe.
    + split; [eauto | discriminate].
    + split; [eauto | reflexivity].
Qed.

Lemma X10_stops_at_failing_put_witness :
  let w := Scenario.world_put_fails_at 5 2 Sample.validation_error in
  let puts := puts_of (trace (invoke Sample.runtime w tt tt).1) in
  length puts = 3%nat /\
  (exists e', (invoke Sample.runtime w tt tt).2 = Raise e') /\
  (batch_exit w TABLE_NAME puts true = None ->
   (invoke Sample.runtime w tt tt).2 = Raise Sample.validation_error).
Proof.
  intros w puts.
  assert (Hit : puts !! 2%nat = Some (default ∅ (puts !! 2%nat)))
    by (vm_compute; reflexivity).
  assert (Hfail : put_item w TABLE_NAME (take 2 puts) (default ∅ (puts !! 2%nat))
                  = Some Sample.validation_error) by (vm_compute; reflexivity).
  exact (X10_stops_at_failing_put Sample.runtime w tt tt 2 _ Sample.validation_error
           Hit Hfail).
Defined.

(** X11. If the secret store, the listing and the table answer every
    call and the string of every score reads as a decimal, the handler
    returns status 200 with the number of posts of the listing as
    posts_count; one item per post was put, and these items are the
    records the list holds at the end. *)
Theorem X11_all_services_answer (rt : Runtime) (w : World) {E C : Type}
    (event : E) (context : C)
    (secret_string : string) (creds client_id client_secret : json) (posts : list Post) :
  get_secret_value w REGION_NAME SECRET_NAME = Ok {| SecretString := Some secret_string |} ->
  json_loads rt secret_string = Ok creds ->
  Json.getitem creds "client_id" = Ok client_id ->
  Json.getitem creds "client_secret" = Ok client_secret ->
  hot w client_id client_secret USER_AGENT SUBREDDIT_NAME LIMIT_POSTS = (posts, None) ->
  (forall post, post ∈ posts ->
     is_Some (Decimal.of_string (float_str rt (polarity_compound rt (post_title post))))) ->
  (forall sent it, put_item w TABLE_NAME sent it = None) ->
  (forall sent, batch_exit w TABLE_NAME sent false = None) ->
  exists s : state,
    invoke rt w event context =
      (s, Ok {| statusCode := 200; body := response_text (Z.of_nat (length posts)) |}) /\
    length (puts_of (trace s)) = length posts /\
    puts_of (trace s) = processed_results s /\
    ticks s = length posts.
Proof.
  intros Hsecret Hloads Hid Hsec Hhot Hdec Hput Hexit.
  rewrite (invoke_run rt w event context _ _ _ _ _ _ Hsecret Hloads Hid Hsec Hhot eq_refl).
  assert (Hconv : Forall (fun it => exists it', convert rt it = Ok it')
                    (built rt w SUBREDDIT_NAME 0 posts)).
  { apply Forall_lookup. intros i r Hr.
    apply built_lookup_inv in Hr as (post & Hpost & ->).
    destruct (Hdec post) as [d Hd]; [eapply list_elem_of_lookup_2; exact Hpost |].
    unfold convert, item_get.
    rewrite (proj1 (proj2 (proj2 (proj2 (proj2 (build_record_fields _ _ _ _)))))).
    cbn [Decimal_of_str]. rewrite Hd. eauto. }
  destruct (persist_run_all_ok rt w [] _ Hconv Hput) as [l Hrun].
  assert (Hout : batch_outcome rt w [] (built rt w SUBREDDIT_NAME 0 posts) = (l, None)).
  { unfold batch_outcome. rewrite Hrun, Hexit. reflexivity. }
  rewrite Hout.
  destruct (batch_outcome_spec rt w _ _ _ _ Hout) as [_ Hlen].
  specialize (Hlen eq_refl). rewrite length_built in Hlen.
  eexists. split; [rewrite response_body_text; reflexivity |].
  cbn [trace processed_results ticks].
  rewrite (puts_of_batch_trace rt w) by reflexivity.
  split; [exact Hlen |]. split; [| reflexivity].
  rewrite <- (length_built rt w SUBREDDIT_NAME 0 posts) in Hlen.
  rewrite Hlen, drop_all, app_nil_r. reflexivity.
Qed.

Lemma X11_all_services_answer_witness :
  exists s : state,
    invoke Sample.runtime (Sample.world 4) tt tt =
      (s, Ok {| statusCode := 200;
                body := response_text (Z.of_nat (length (Sample.posts 4))) |}) /\
    length (puts_of (trace s)) = length (Sample.posts 4) /\
    puts_of (trace s) = processed_results s /\
    ticks s = length (Sample.posts 4).
Proof.
  apply (X11_all_services_answer Sample.runtime (Sample.world 4) tt tt Sample.secret_text
           Sample.credentials (JStr "my-client-id") (JStr "my-client-secret")
           (Sample.posts 4)); try reflexivity.
  intros post Hpost. vm_compute in Hpost.
  repeat (apply elem_of_cons in Hpost as [-> | Hpost]; [vm_compute; eauto |]).
  by apply elem_of_nil in Hpost.
Defined.

(** X12. When a response is returned, what was printed is one progress
    line per record, counting from 1, followed by the success line with
    the number of records; no error line is printed. *)
Theorem X12_printed_on_success (rt : Runtime) (w : World) {E C : Type}
    (event : E) (context : C) (s : state) (r : response) :
  invoke rt w event context = (s, Ok r) ->
  let n := length (processed_results s) in
  printed (trace s) = (progress_line <$> seq 1 n) ++ [success_line n].
Proof.
  intros Hrun.
  destruct (invoke_shapes rt w event context)
    as [[e [H | H]] | [(cid & csec & posts & e & H) | (cid & csec & posts & l & oe & Hout & H)]];
    rewrite H in Hrun; try discriminate.
  destruct oe as [e |]; [discriminate |].
  injection Hrun as <- _. cbv zeta. cbn [trace processed_results].
  destruct (results_after_batch rt w _ _ _ _ Hout) as [Hlen _].
  rewrite length_built in Hlen. rewrite Hlen.
  match goal with
  | |- printed (_ :: _ :: ?evs) = ?rhs => change (printed evs = rhs)
  end.
  rewrite !printed_app, printed_put_events, printed_loop_events. reflexivity.
Qed.

Lemma X12_printed_on_success_witness :
  let run := invoke Sample.runtime (Sample.world 2) tt tt in
  printed (trace run.1)
  = (progress_line <$> seq 1 (length (processed_results run.1)))
    ++ [success_line (length (processed_results run.1))].
Proof.
  intros run.
  assert (Hrun : run = (run.1, Ok {| statusCode := 200; body := response_text 2 |}))
    by (vm_compute; reflexivity).
  exact (X12_printed_on_success Sample.runtime (Sample.world 2) tt tt run.1 _ Hrun).
Defined.

(** X13. A response is returned only if every service answered: the
    secret store gave a string that parsed to a value with both
    credentials, the listing ended without an exception, every
    [put_item] call returned and so did the exit of the batch writer. *)
Theorem X13_response_needs_every_answer (rt : Runtime) (w : World) {E C : Type}
    (event : E) (context : C) (s : state) (r : response) :
  invoke rt w event context = (s, Ok r) ->
  (exists secret_string creds client_id client_secret posts,
     get_secret_value w REGION_NAME SECRET_NAME
     = Ok {| SecretString := Some secret_string |} /\
     json_loads rt secret_string = Ok creds /\
     Json.getitem creds "client_id" = Ok client_id /\
     Json.getitem creds "client_secret" = Ok client_secret /\
     hot w client_id client_secret USER_AGENT SUBREDDIT_NAME LIMIT_POSTS = (posts, None) /\
     length (processed_results s) = length posts) /\
  (forall (k : nat) (it : item), puts_of (trace s) !! k = Some it ->
     put_item w TABLE_NAME (take k (puts_of (trace s))) it = None) /\
  batch_exit w TABLE_NAME (puts_of (trace s)) false = None.
Proof.
  intros Hrun.
  destruct (invoke_ok_inv rt w event context s r Hrun)
    as (sstr & creds & cid & csec & posts & Hsecret & Hloads & Hid & Hsec & Hhot).
  pose proof (invoke_run rt w event context _ _ _ _ _ _
                Hsecret Hloads Hid Hsec Hhot eq_refl) as Hshape.
  rewrite Hrun in Hshape.
  destruct (batch_outcome rt w [] (built rt w SUBREDDIT_NAME 0 posts)) as [l oe] eqn:Hout.
  destruct oe as [e |]; [discriminate |].
  injection Hshape as -> _.
  destruct (results_after_batch rt w _ _ _ _ Hout) as [Hlen _].
  rewrite length_built in Hlen.
  cbn [trace processed_results].
  rewrite (puts_of_batch_events rt w) by reflexivity.
  split; [exists sstr, creds, cid, csec, posts; auto 10 |].
  unfold batch_outcome in Hout.
  destruct (persist_run rt w [] (built rt w SUBREDDIT_NAME 0 posts)) as [l0 oe0] eqn:Hprun.
  injection Hout as -> Hoe. cbn [app] in Hoe.
  assert (Hoe0 : oe0 = None).
  { destruct (batch_exit w TABLE_NAME l _); [discriminate | exact Hoe]. }
  subst oe0. split.
  - intros k it Hit.
    destruct (put_item w TABLE_NAME (take k l) it) as [e |] eqn:Hput; [| reflexivity].
    destruct (persist_run_stops rt w [] _ _ _ k it e Hprun Hit Hput) as [_ Hfalse].
    discriminate.
  - destruct (batch_exit w TABLE_NAME l false); [discriminate | reflexivity].
Qed.

Lemma X13_response_needs_every_answer_witness :
  let run := invoke Sample.runtime (Sample.world 2) tt tt in
  batch_exit (Sample.world 2) TABLE_NAME (puts_of (trace run.1)) false = None.
Proof.
  intros run.
  assert (Hrun : run = (run.1, Ok {| statusCode := 200; body := response_text 2 |}))
    by (vm_compute; reflexivity).
  exact (proj2 (proj2 (X13_response_needs_every_answer Sample.runtime (Sample.world 2) tt tt
                         run.1 _ Hrun))).
Defined.
